(** * Energy-hub model construction: technology builder and global sets

    Shallow embedding of
      - [src/model_construction/construct_technology.py]
        ([add_technologies] and its block rule [init_technology_block]);
      - [src/energyhub.py] ([energyhub.__init__] and its set rule [tec_node]).

    Python numbers are rationals ([Q]); dictionaries that are only read by
    key are finite maps ([gmap string _]); a Pyomo block is the ordered list
    of its named components; mutation of the block under construction, of
    the process-wide configuration flag and of the lines the program prints
    itself is threaded through a state monad whose exceptions keep the state
    reached when they were raised.

    Two things of Pyomo are part of the model because the source depends on
    them: a component is attached to its block and then constructed, and
    construction validates a parameter against its domain and the units of
    the bounds of a variable against the units of the variable. What
    Pyomo's [Piecewise] does with its breakpoints is left open (a parameter
    of the model). What Pyomo's own logger writes (deprecation warnings, the
    ERROR record of a rule that raised) is not part of the model: [printed]
    holds the output of the [print] calls of the source and nothing else. *)

From Stdlib Require Import QArith Qround ZArith List String Lia.
From stdpp Require Import gmap strings list.

Open Scope string_scope.
Open Scope list_scope.

(** ** Python values and exceptions

    Exceptions are told apart by their class. The message of an exception
    raised by Python or Pyomo depends on the version of the library; it is
    carried along and no statement depends on its text. *)

Inductive exn : Type :=
| ValueError (msg : string)
| KeyError (key : string)
| NameError (name : string)
| IndexError (msg : string)
| AttributeError (name : string)
| InconsistentUnitsError (msg : string)
| OtherError (msg : string).

Inductive result (A : Type) : Type :=
| Ok (a : A)
| Raise (e : exn).
Arguments Ok {A} a.
Arguments Raise {A} e.

(** [x < y] on Python numbers, as a boolean. *)
Definition Qltb (x y : Q) : bool := negb (Qle_bool y x).

(** Built-in [min]: the first element is the running best and a later
    element replaces it only when it is strictly smaller. *)
Fixpoint py_min_from (best : Q) (l : list Q) : Q :=
  match l with
  | [] => best
  | x :: r => py_min_from (if Qltb x best then x else best) r
  end.

Definition py_min (l : list Q) : result Q :=
  match l with
  | [] => Raise (ValueError "min() arg is an empty sequence")
  | x :: r => Ok (py_min_from x r)
  end.

(** Built-in [max]: a later element replaces the running best only when it
    is strictly greater. *)
Fixpoint py_max_from (best : Q) (l : list Q) : Q :=
  match l with
  | [] => best
  | x :: r => py_max_from (if Qltb best x then x else best) r
  end.

Definition py_max (l : list Q) : result Q :=
  match l with
  | [] => Raise (ValueError "max() arg is an empty sequence")
  | x :: r => Ok (py_max_from x r)
  end.

(** ** Input data (the [DataHandle] bundle) *)

(** A size bound is a single number or a collection of numbers
    ([isinstance(_, numbers.Number)] tells them apart). *)
Inductive size_spec : Type :=
| Number (q : Q)
| Collection (l : list Q).

Record TechnologyPerf : Type := {
  tec_type : string;
  size_is_int : bool;
  size_min : size_spec;
  size_max : size_spec;
  input_carrier : list string;
  output_carrier : list string
}.

Record Economics : Type := {
  CAPEX_model : Z;
  unit_CAPEX_annual : Q;
  OPEX_variable : Q;
  OPEX_fixed : Q
}.

Record TecData : Type := {
  TechnologyPerf_of : TechnologyPerf;
  Economics_of : Economics
}.

Record Topology : Type := {
  nodes : list string;
  carriers : list string;
  timesteps : list string;
  technologies : gmap string (list string)
}.

Record DataHandle : Type := {
  topology : Topology;
  (** [node_data[n]['climate_data']['dataframe'].columns.tolist()] *)
  node_data : gmap string (list string);
  (** [technology_data[nodename][tec]] *)
  technology_data : gmap string (gmap string TecData)
}.

(** ** Pyomo components *)

Inductive domain : Type := Reals | NonNegativeReals | NonNegativeIntegers.

Inductive unit_ : Type :=
| dimensionless | MW | MWh | EUR
| unit_div (a b : unit_).

Record Param : Type := {
  p_domain : domain;
  p_value : Q;
  p_units : unit_
}.

(** Index of a component: none (scalar component), a time step, or a
    (time step, carrier) pair. *)
Inductive index : Type :=
| IScalar
| IT (t : Z)
| ITC (t : Z) (car : string).

(** A bound of a variable: a plain number or a parameter (with its
    units). *)
Inductive bound : Type :=
| BNumber (q : Q)
| BParam (p : Param).

Definition bound_value (b : bound) : Q :=
  match b with
  | BNumber q => q
  | BParam p => p_value p
  end.

Record Var : Type := {
  v_index : list index;
  v_within : domain;
  v_bounds : option (bound * bound);
  v_units : option unit_
}.

Inductive expr : Type :=
| EConst (q : Q)
| EParam (p : Param)
| EVar (name : string) (i : index)
| EAdd (a b : expr)
| EMul (a b : expr).

(** [lhs == rhs] *)
Record equality : Type := { e_lhs : expr; e_rhs : expr }.

Inductive pw_constr_type : Type := EQ | LB | UB.
Inductive pw_repn : Type := SOS2 | BIGM_BIN | CC.

Record PiecewiseData : Type := {
  pw_yvar : string;
  pw_xvar : string;
  pw_pts : list Q;
  pw_kind : pw_constr_type;
  pw_f_rule : list Q;
  pw_representation : pw_repn
}.

Inductive Component : Type :=
| CParam (p : Param)
| CSet (elems : list string)
| CVar (v : Var)
| CConstraint (rows : list (index * equality))
| CPiecewise (p : PiecewiseData)
(** a component that was attached to the block and whose construction
    raised; [declared] is the component as it was declared *)
| CFailed (declared : Component).

(** A block: its components by name, in declaration order. *)
Definition Block : Type := list (string * Component).

Fixpoint getattr (name : string) (b : Block) : option Component :=
  match b with
  | [] => None
  | (n, c) :: r => if String.eqb n name then Some c else getattr name r
  end.

(** Membership of a number in a Pyomo domain. *)
Definition in_domain (d : domain) (q : Q) : bool :=
  match d with
  | Reals => true
  | NonNegativeReals => Qle_bool 0 q
  | NonNegativeIntegers => Qle_bool 0 q && Qeq_bool q (inject_Z (Qfloor q))
  end.

Fixpoint unit_eqb (a b : unit_) : bool :=
  match a, b with
  | dimensionless, dimensionless | MW, MW | MWh, MWh | EUR, EUR => true
  | unit_div a1 a2, unit_div b1 b2 => unit_eqb a1 b1 && unit_eqb a2 b2
  | _, _ => false
  end.

(** A bound can be converted to the units of its variable: a plain number
    is taken as it is; a parameter must have the units of the variable.
    Units are compared as written, which is enough here: the only bounds
    with units are the size parameters (dimensionless or MW) and
    para_output_max (MW), on variables in MW. *)
Definition bound_units_ok (var_units : unit_) (b : bound) : bool :=
  match b with
  | BNumber _ => true
  | BParam p => unit_eqb var_units (p_units p)
  end.

(** Both bounds of a variable can be converted to its units. The bounds of
    a variable declared without units are not converted. *)
Definition bounds_units_ok (v : Var) : bool :=
  match v_bounds v, v_units v with
  | Some (lo, hi), Some u => bound_units_ok u lo && bound_units_ok u hi
  | _, _ => true
  end.

(** Construction of a parameter, set, variable or constraint. A parameter
    is validated against its domain. The bounds of a variable are converted
    to its units once per index, so a variable over an empty index set is
    never checked. Sets and the constraints declared here do not fail. *)
Definition construct (c : Component) : result unit :=
  match c with
  | CParam p =>
      if in_domain (p_domain p) (p_value p) then Ok tt
      else Raise (ValueError "Invalid parameter value: value not in parameter domain")
  | CVar v =>
      if bounds_units_ok v then Ok tt
      else match v_index v with
           | [] => Ok tt
           | _ :: _ =>
               Raise (InconsistentUnitsError
                        "bound not compatible with the units of the variable")
           end
  | _ => Ok tt
  end.

(** [Set(initialize=l)]: an ordered set, the first occurrence of each
    element kept. *)
Fixpoint Set_initialize (l : list string) : list string :=
  match l with
  | [] => []
  | x :: r => x :: List.filter (fun y => negb (String.eqb y x)) (Set_initialize r)
  end.

(** [RangeSet(1, n)] *)
Definition RangeSet (lo : Z) (n : nat) : list Z :=
  List.map (fun i => (lo + Z.of_nat i)%Z) (List.seq 0 n).

Record Model : Type := {
  set_nodes : list string;
  set_carriers : list string;
  set_t : list Z;
  set_climate_vars : list string;
  set_technologies : list (string * list string)
}.

(** ** The construction monad

    A computation reads and writes a state and either returns a value or
    raises; an exception leaves the state as it was when it was raised
    (nothing is rolled back). *)

Definition M (S A : Type) : Type := S -> result A * S.

Definition ret {S A} (a : A) : M S A := fun s => (Ok a, s).

Definition raise {S A} (e : exn) : M S A := fun s => (Raise e, s).

Definition bind {S A B} (c : M S A) (k : A -> M S B) : M S B :=
  fun s =>
    match c s with
    | (Ok a, s') => k a s'
    | (Raise e, s') => (Raise e, s')
    end.

Notation "'let*' x ':=' c 'in' k" := (bind c (fun x => k))
  (at level 10, x name, c at level 100, k at level 200).
Notation "c1 ;;; c2" := (bind c1 (fun _ => c2))
  (at level 100, c2 at level 200, right associativity).

Definition lift_result {S A} (r : result A) : M S A := fun s => (r, s).

(** [for x in l: f x], collecting the results. *)
Fixpoint for_each {S A B} (f : A -> M S B) (l : list A) : M S (list B) :=
  match l with
  | [] => ret []
  | x :: r =>
      let* y := f x in
      let* ys := for_each f r in
      ret (y :: ys)
  end.

(** Process-wide state: the flag [m_config.presolve.big_m_transformation_required]
    and the lines written by the [print] calls of the source, in order.
    Output of Pyomo's logger is not recorded here. *)
Record World : Type := {
  big_m_transformation_required : Z;
  printed : list string
}.

(** State of a block rule: the block under construction and the world. *)
Record BuildState : Type := {
  b_tec : Block;
  world : World
}.

Definition fresh_block (w : World) : BuildState := {| b_tec := []; world := w |}.

(** [b_tec.name = c]: the component is attached to the block and then
    constructed. When its construction raises, the exception leaves the
    rule and the component stays attached. *)
Definition setattr (name : string) (c : Component) : M BuildState unit :=
  fun s =>
    match construct c with
    | Ok _ => (Ok tt, {| b_tec := b_tec s ++ [(name, c)]; world := world s |})
    | Raise e =>
        (Raise e, {| b_tec := b_tec s ++ [(name, CFailed c)]; world := world s |})
    end.

(** [b_tec.name] read back as a parameter / a set. *)
Definition get_param (name : string) : M BuildState Param :=
  fun s =>
    match getattr name (b_tec s) with
    | Some (CParam p) => (Ok p, s)
    | _ => (Raise (AttributeError name), s)
    end.

Definition get_set (name : string) : M BuildState (list string) :=
  fun s =>
    match getattr name (b_tec s) with
    | Some (CSet l) => (Ok l, s)
    | _ => (Raise (AttributeError name), s)
    end.

(** [m_config.presolve.big_m_transformation_required = v] *)
Definition set_big_m (v : Z) : M BuildState unit :=
  fun s => (Ok tt, {| b_tec := b_tec s;
                      world := {| big_m_transformation_required := v;
                                  printed := printed (world s) |} |}).

(** [Param(domain=d, initialize=v, units=un)]: the parameter as declared;
    it is validated when it is attached to a block ([setattr]). *)
Definition Param_new (d : domain) (v : Q) (un : unit_) : Param :=
  {| p_domain := d; p_value := v; p_units := un |}.

(** A global name of the module: bound or not. *)
Definition global {S A} (name : string) (binding : option A) : M S A :=
  match binding with
  | Some v => ret v
  | None => raise (NameError name)
  end.

(** What Pyomo's [Piecewise] does with the breakpoints it is given: the
    component is built; or the call raises and nothing is attached; or the
    construction of the attached component raises. *)
Inductive piecewise_outcome : Type :=
| PwBuilt
| PwRejected (e : exn)
| PwFailed (e : exn).

(** Names the module obtains from its star import and whose definition the
    source shown does not include: the breakpoint arrays of the piecewise
    CAPEX curve ([None] is an unbound name), and Pyomo's [Piecewise], whose
    checks of the breakpoints against the block it is attached to are not
    modelled. *)
Record ModuleGlobals : Type := {
  bp_x : option (list Q);
  bp_y : option (list Q);
  Piecewise : Block -> PiecewiseData -> piecewise_outcome
}.

(** [b_tec.name = Piecewise(...)] *)
Definition setattr_piecewise (G : ModuleGlobals) (name : string)
    (p : PiecewiseData) : M BuildState unit :=
  fun s =>
    match Piecewise G (b_tec s) p with
    | PwBuilt =>
        (Ok tt, {| b_tec := b_tec s ++ [(name, CPiecewise p)]; world := world s |})
    | PwRejected e => (Raise e, s)
    | PwFailed e =>
        (Raise e, {| b_tec := b_tec s ++ [(name, CFailed (CPiecewise p))];
                     world := world s |})
    end.

(** The piecewise component lines 138-142 declare, given the values of
    [bp_x] and [bp_y]. *)
Definition declared_piecewise (pts f : list Q) : PiecewiseData :=
  {| pw_yvar := "var_CAPEX"; pw_xvar := "var_size";
     pw_pts := pts; pw_kind := EQ;
     pw_f_rule := f; pw_representation := SOS2 |}.

(** The archetype constraint functions of
    [src.model_construction.generic_technology_constraints]; each receives
    the model, the block (the state) and the technology data. *)
Record ArchetypeLibrary : Type := {
  constraints_tec_RES : Model -> TecData -> M BuildState unit;
  constraints_tec_CONV1 : Model -> TecData -> M BuildState unit;
  constraints_tec_CONV2 : Model -> TecData -> M BuildState unit;
  constraints_tec_CONV3 : Model -> TecData -> M BuildState unit;
  constraints_tec_STOR : Model -> TecData -> M BuildState unit
}.

(** ** [construct_technology.py] *)

(** Lines 81-88: a single number is used as it is, a collection is reduced
    with [min] (resp. [max]). *)
Definition resolve_size_min (v : size_spec) : result Q :=
  match v with
  | Number q => Ok q
  | Collection l => py_min l
  end.

Definition resolve_size_max (v : size_spec) : result Q :=
  match v with
  | Number q => Ok q
  | Collection l => py_max l
  end.

(** Index set of [Var(model.set_t, carriers, ...)]. *)
Definition product_index (ts : list Z) (cars : list string) : list index :=
  List.flat_map (fun t => List.map (ITC t) cars) ts.

(** Built-in [sum] over expressions: starts from the integer [0]. *)
Definition py_sum (es : list expr) : expr :=
  List.fold_left EAdd es (EConst 0%Q).

(** The rule of [const_OPEX_variable] (lines 147-149). *)
Definition init_OPEX_variable (t : Z) : M BuildState equality :=
  let* cars := get_set "set_output_carriers" in
  let* rate := get_param "para_OPEX_variable" in
  ret {| e_lhs := EMul (py_sum (List.map (fun car => EVar "var_output" (ITC t car)) cars))
                       (EParam rate);
         e_rhs := EVar "var_OPEX_variable" (IT t) |}.

(** [Constraint(model.set_t, rule=r)]: one row per index, in order. *)
Definition Constraint_indexed (ts : list Z) (r : Z -> M BuildState equality)
  : M BuildState Component :=
  let* rows := for_each (fun t => let* e := r t in ret (IT t, e)) ts in
  ret (CConstraint rows).

Section Builder.

Variable L : ArchetypeLibrary.
Variable G : ModuleGlobals.

(** region PARAMETERS (lines 78-103) *)
Definition region_parameters (tec_data : TecData) : M BuildState unit :=
  let perf := TechnologyPerf_of tec_data in
  let econ := Economics_of tec_data in
  let* size_min := lift_result (resolve_size_min (size_min perf)) in
  let* size_max := lift_result (resolve_size_max (size_max perf)) in
  let unit_size := if size_is_int perf then dimensionless else MW in
  setattr "para_size_min"
    (CParam (Param_new NonNegativeReals size_min unit_size)) ;;;
  setattr "para_size_max"
    (CParam (Param_new NonNegativeReals size_max unit_size)) ;;;
  setattr "para_output_max"
    (CParam (Param_new NonNegativeReals size_max MW)) ;;;
  setattr "para_unit_CAPEX"
    (CParam (Param_new Reals (unit_CAPEX_annual econ) (unit_div EUR unit_size))) ;;;
  setattr "para_OPEX_variable"
    (CParam (Param_new Reals (OPEX_variable econ) (unit_div EUR MWh))) ;;;
  setattr "para_OPEX_fixed"
    (CParam (Param_new Reals (OPEX_fixed econ) (unit_div EUR EUR))).

(** region SETS (lines 105-108) *)
Definition region_sets (tec_data : TecData) : M BuildState unit :=
  let perf := TechnologyPerf_of tec_data in
  setattr "set_input_carriers" (CSet (Set_initialize (input_carrier perf))) ;;;
  setattr "set_output_carriers" (CSet (Set_initialize (output_carrier perf))).

(** region DECISION VARIABLES (lines 110-129) *)
Definition region_decision_variables (model : Model) (tec_data : TecData)
  : M BuildState unit :=
  let perf := TechnologyPerf_of tec_data in
  (if negb (String.eqb (tec_type perf) "RES") then
     let* cars := get_set "set_input_carriers" in
     let* lo := get_param "para_size_min" in
     let* hi := get_param "para_size_max" in
     setattr "var_input"
       (CVar {| v_index := product_index (set_t model) cars;
                v_within := NonNegativeReals;
                v_bounds := Some (BParam lo, BParam hi);
                v_units := Some MW |})
   else ret tt) ;;;
  let* cars := get_set "set_output_carriers" in
  let* hi := get_param "para_output_max" in
  setattr "var_output"
    (CVar {| v_index := product_index (set_t model) cars;
             v_within := NonNegativeReals;
             v_bounds := Some (BNumber 0, BParam hi);
             v_units := Some MW |}) ;;;
  let* lo := get_param "para_size_min" in
  let* hi := get_param "para_size_max" in
  (if size_is_int perf then
     setattr "var_size"
       (CVar {| v_index := [IScalar];
                v_within := NonNegativeIntegers;
                v_bounds := Some (BParam lo, BParam hi);
                v_units := None |})
   else
     setattr "var_size"
       (CVar {| v_index := [IScalar];
                v_within := NonNegativeReals;
                v_bounds := Some (BParam lo, BParam hi);
                v_units := Some MW |})) ;;;
  setattr "var_CAPEX"
    (CVar {| v_index := [IScalar]; v_within := Reals;
             v_bounds := None; v_units := Some EUR |}) ;;;
  setattr "var_OPEX_variable"
    (CVar {| v_index := List.map IT (set_t model); v_within := Reals;
             v_bounds := None; v_units := Some EUR |}) ;;;
  setattr "var_OPEX_fixed"
    (CVar {| v_index := [IScalar]; v_within := Reals;
             v_bounds := None; v_units := Some EUR |}).

(** region GENERAL CONSTRAINTS (lines 131-163) *)
Definition region_general_constraints (model : Model) (tec_data : TecData)
  : M BuildState unit :=
  let capex_model := CAPEX_model (Economics_of tec_data) in
  (if (capex_model =? 1)%Z then
     let* unit_capex := get_param "para_unit_CAPEX" in
     setattr "const_CAPEX"
       (CConstraint [(IScalar,
          {| e_lhs := EMul (EVar "var_size" IScalar) (EParam unit_capex);
             e_rhs := EVar "var_CAPEX" IScalar |})])
   else if (capex_model =? 2)%Z then
     set_big_m 1 ;;;
     let* pts := global "bp_x" (bp_x G) in
     let* f := global "bp_y" (bp_y G) in
     setattr_piecewise G "const_CAPEX" (declared_piecewise pts f)
   else ret tt) ;;;
  let* opex_fixed := get_param "para_OPEX_fixed" in
  setattr "const_OPEX_fixed"
    (CConstraint [(IScalar,
       {| e_lhs := EMul (EVar "var_CAPEX" IScalar) (EParam opex_fixed);
          e_rhs := EVar "var_OPEX_fixed" IScalar |})]) ;;;
  let* c := Constraint_indexed (set_t model) init_OPEX_variable in
  setattr "const_OPEX_variable" c.

(** region TECHNOLOGY TYPES (lines 165-179): an [if]/[elif] chain with no
    [else]. *)
Definition region_technology_types (model : Model) (tec_data : TecData)
  : M BuildState unit :=
  let tec_type := tec_type (TechnologyPerf_of tec_data) in
  if String.eqb tec_type "RES" then constraints_tec_RES L model tec_data
  else if String.eqb tec_type "CONV1" then constraints_tec_CONV1 L model tec_data
  else if String.eqb tec_type "CONV2" then constraints_tec_CONV2 L model tec_data
  else if String.eqb tec_type "CONV3" then constraints_tec_CONV3 L model tec_data
  else if String.eqb tec_type "STOR" then constraints_tec_STOR L model tec_data
  else ret tt.

(** What the rule adds for every technology, whatever its archetype
    (lines 78-163). *)
Definition common_part (model : Model) (tec_data : TecData) : M BuildState unit :=
  region_parameters tec_data ;;;
  region_sets tec_data ;;;
  region_decision_variables model tec_data ;;;
  region_general_constraints model tec_data.

(** [data.technology_data[nodename][tec]] (line 72) *)
Definition get_tec_data (data : DataHandle) (nodename tec : string) : result TecData :=
  match technology_data data !! nodename with
  | None => Raise (KeyError nodename)
  | Some at_node =>
      match at_node !! tec with
      | None => Raise (KeyError tec)
      | Some d => Ok d
      end
  end.

(** The block rule (lines 69-179). *)
Definition init_technology_block (nodename : string) (model : Model)
    (data : DataHandle) (tec : string) : M BuildState unit :=
  let* tec_data := lift_result (get_tec_data data nodename tec) in
  common_part model tec_data ;;;
  region_technology_types model tec_data.

(** [Block(index, rule=r)]: for each index in order, the rule runs on a
    fresh block; the world is threaded through. An exception of the rule
    ends the construction (the record Pyomo's logger writes about it is not
    part of [printed]). *)
Definition Block_indexed (idx : list string) (r : string -> M BuildState unit)
  : M World (list (string * Block)) :=
  for_each (fun i w =>
              match r i (fresh_block w) with
              | (Ok _, s) => (Ok (i, b_tec s), world s)
              | (Raise e, s) => (Raise e, world s)
              end) idx.

(** [add_technologies] (line 181); [set_tecsAtNode] is [b_node.set_tecsAtNode]
    and the result is [b_node.tech_blocks]. *)
Definition add_technologies (nodename : string) (set_tecsAtNode : list string)
    (model : Model) (data : DataHandle) : M World (list (string * Block)) :=
  Block_indexed set_tecsAtNode (init_technology_block nodename model data).

End Builder.

(** ** [energyhub.py]: construction of the global sets *)

Definition print (line : string) : M World unit :=
  fun w => (Ok tt, {| big_m_transformation_required := big_m_transformation_required w;
                      printed := printed w ++ [line] |}).

(** [print(a, b, c)]: the arguments separated by one space. *)
Definition print3 (a b c : string) : M World unit :=
  print (a ++ " " ++ b ++ " " ++ c).

(** The rule [tec_node] (lines 40-47). The only statement of the [try]
    body that can raise is the dictionary lookup, with a [KeyError]; the
    handler prints and re-raises. When the guard is false the function
    falls off its end and returns [None]. *)
Definition tec_node (sets : Topology) (model_set_nodes : list string)
    (node : string) : M World (option (list string)) :=
  if existsb (String.eqb node) model_set_nodes then
    match technologies sets !! node with
    | Some tecs => ret (Some tecs)
    | None =>
        print3 "The nodes in the technology sets do not match the node names. The node '"
               node "' does not exist." ;;;
        raise (KeyError node)
    end
  else ret None.

(** [Set(index, initialize=rule)]: the rule is called once per element of
    the index set, in order, and an exception of the rule ends the
    construction (the record Pyomo's logger writes about it is not part of
    [printed]). A rule returning [None] leaves the member empty. *)
Definition Set_indexed (idx : list string)
    (rule : string -> M World (option (list string)))
  : M World (list (string * list string)) :=
  for_each (fun i =>
              let* v := rule i in
              ret (i, Set_initialize (match v with Some l => l | None => [] end)))
           idx.

(** [energyhub.__init__] up to and including the technology sets
    (lines 31-48). [printed] records what the [print] call of [tec_node]
    writes; the deprecation warning Pyomo's logger may write for
    [set_nodes[1]] is not recorded. *)
Definition energyhub_init (data : DataHandle) : M World Model :=
  let sets := topology data in
  let model_set_nodes := Set_initialize (nodes sets) in
  let model_set_carriers := Set_initialize (carriers sets) in
  let model_set_t := RangeSet 1 (List.length (timesteps sets)) in
  let* first :=
    match model_set_nodes with
    | [] => raise (IndexError "set_nodes[1]")
    | n :: _ => ret n
    end in
  let* climate_vars :=
    match node_data data !! first with
    | Some cols => ret cols
    | None => raise (KeyError first)
    end in
  let* tecs := Set_indexed model_set_nodes (tec_node sets model_set_nodes) in
  ret {| set_nodes := model_set_nodes;
         set_carriers := model_set_carriers;
         set_t := model_set_t;
         set_climate_vars := Set_initialize climate_vars;
         set_technologies := tecs |}.

(** ** Meaning of the emitted components *)

(** A candidate solution: a value for every variable at every index. *)
Definition valuation : Type := string -> index -> Q.

Fixpoint eval (rho : valuation) (e : expr) : Q :=
  match e with
  | EConst q => q
  | EParam p => p_value p
  | EVar n i => rho n i
  | EAdd a b => (eval rho a + eval rho b)%Q
  | EMul a b => (eval rho a * eval rho b)%Q
  end.

Definition holds (rho : valuation) (c : equality) : Prop :=
  (eval rho (e_lhs c) == eval rho (e_rhs c))%Q.

(** A value a variable may take: inside its domain and its bounds. *)
Definition admissible (v : Var) (x : Q) : Prop :=
  in_domain (v_within v) x = true /\
  match v_bounds v with
  | Some (lo, hi) => (bound_value lo <= x)%Q /\ (x <= bound_value hi)%Q
  | None => True
  end.

(** Sum of the outputs of a technology at time [t] over carriers [cars]. *)
Definition total_output (rho : valuation) (t : Z) (cars : list string) : Q :=
  List.fold_right (fun car acc => (rho "var_output" (ITC t car) + acc)%Q) 0%Q cars.


(** The size bounds resolve to non-negative numbers [lo] and [hi]: the
    checks the parameter declarations perform. *)
Definition sizes_ok (tec_data : TecData) (lo hi : Q) : Prop :=
  resolve_size_min (size_min (TechnologyPerf_of tec_data)) = Ok lo /\
  resolve_size_max (size_max (TechnologyPerf_of tec_data)) = Ok hi /\
  (0 <= lo)%Q /\ (0 <= hi)%Q.

(** The size is continuous or the technology is RES. An integer-sized
    technology has dimensionless size parameters, which cannot bound an
    input variable in MW; a RES technology has no input variable. *)
Definition units_ok (tec_data : TecData) : Prop :=
  size_is_int (TechnologyPerf_of tec_data) = true ->
  tec_type (TechnologyPerf_of tec_data) = "RES".

(** The input variable of the technology would have no index. *)
Definition no_input_index (model : Model) (tec_data : TecData) : Prop :=
  set_t model = [] \/ input_carrier (TechnologyPerf_of tec_data) = [].

(** A technology the code before the archetype dispatch builds whatever
    the module binds: its size bounds resolve to the non-negative numbers
    [lo] and [hi], its size is continuous or it is RES, and its cost model
    is not the piecewise one. *)
Definition accepted (tec_data : TecData) (lo hi : Q) : Prop :=
  sizes_ok tec_data lo hi /\ units_ok tec_data /\
  CAPEX_model (Economics_of tec_data) <> 2%Z.

(** The bounds of a variable as numbers. *)
Definition v_bound_values (v : Var) : option (Q * Q) :=
  match v_bounds v with
  | Some (lo, hi) => Some (bound_value lo, bound_value hi)
  | None => None
  end.

(** [cars] holds the carriers of the list [raw] of the data, each once. *)
Definition each_once (raw cars : list string) : Prop :=
  List.NoDup cars /\ forall c, In c cars <-> In c raw.

(** The names the piecewise branch needs are bound when it is taken. *)
Definition capex_ok (G : ModuleGlobals) (tec_data : TecData) : Prop :=
  CAPEX_model (Economics_of tec_data) = 2%Z ->
  is_Some (bp_x G) /\ is_Some (bp_y G).

(** The components the common part may declare, by name. *)
Definition common_names : list string :=
  ["para_size_min"; "para_size_max"; "para_output_max"; "para_unit_CAPEX";
   "para_OPEX_variable"; "para_OPEX_fixed";
   "set_input_carriers"; "set_output_carriers";
   "var_input"; "var_output"; "var_size"; "var_CAPEX"; "var_OPEX_variable";
   "var_OPEX_fixed"; "const_CAPEX"; "const_OPEX_fixed"; "const_OPEX_variable"].

(** Modelled from the spec: the archetype functions live in
    [generic_technology_constraints], which the source shown does not
    include; they add archetype-specific constraints in place. As a
    contract towards the rule that calls them: an archetype function leaves
    the components declared by the common part as they are. *)
Definition keeps_common (f : M BuildState unit) : Prop :=
  forall s n, In n common_names ->
    getattr n (b_tec (snd (f s))) = getattr n (b_tec s).

Definition library_keeps_common (L : ArchetypeLibrary) : Prop :=
  forall model td,
    keeps_common (constraints_tec_RES L model td) /\
    keeps_common (constraints_tec_CONV1 L model td) /\
    keeps_common (constraints_tec_CONV2 L model td) /\
    keeps_common (constraints_tec_CONV3 L model td) /\
    keeps_common (constraints_tec_STOR L model td).

(** Modelled from the spec: the archetype functions only populate the
    technology submodel; in particular they do not write the
    transformation flag. *)
Definition keeps_flag {A} (f : M BuildState A) : Prop :=
  forall s, big_m_transformation_required (world (snd (f s)))
            = big_m_transformation_required (world s).

Definition library_keeps_flag (L : ArchetypeLibrary) : Prop :=
  forall model td,
    keeps_flag (constraints_tec_RES L model td) /\
    keeps_flag (constraints_tec_CONV1 L model td) /\
    keeps_flag (constraints_tec_CONV2 L model td) /\
    keeps_flag (constraints_tec_CONV3 L model td) /\
    keeps_flag (constraints_tec_STOR L model td).

(** A stand-in archetype library for running the rule on concrete inputs:
    each function declares one empty constraint named after its archetype. *)
Definition stub_library : ArchetypeLibrary := {|
  constraints_tec_RES := fun _ _ => setattr "const_RES" (CConstraint []);
  constraints_tec_CONV1 := fun _ _ => setattr "const_CONV1" (CConstraint []);
  constraints_tec_CONV2 := fun _ _ => setattr "const_CONV2" (CConstraint []);
  constraints_tec_CONV3 := fun _ _ => setattr "const_CONV3" (CConstraint []);
  constraints_tec_STOR := fun _ _ => setattr "const_STOR" (CConstraint [])
|}.

(** The hub data with one more entry in the technology-set mapping. *)
Definition with_technology_set (node : string) (tecs : list string)
    (data : DataHandle) : DataHandle := {|
  topology := {|
    nodes := nodes (topology data);
    carriers := carriers (topology data);
    timesteps := timesteps (topology data);
    technologies := <[ node := tecs ]> (technologies (topology data)) |};
  node_data := node_data data;
  technology_data := technology_data data
|}.

(** The model with another global carrier set. *)
Definition with_carriers (cars : list string) (model : Model) : Model := {|
  set_nodes := set_nodes model;
  set_carriers := cars;
  set_t := set_t model;
  set_climate_vars := set_climate_vars model;
  set_technologies := set_technologies model
|}.

(** What [tec_node] prints before it re-raises. *)
Definition missing_node_message (node : string) : string :=
  "The nodes in the technology sets do not match the node names. The node '"
  ++ " " ++ node ++ " " ++ "' does not exist.".

(** Two relations between the world before and after a computation. *)
Definition same_flag (w w' : World) : Prop :=
  big_m_transformation_required w' = big_m_transformation_required w.

Definition flag_stays_set (w w' : World) : Prop :=
  big_m_transformation_required w = 1%Z ->
  big_m_transformation_required w' = 1%Z.

(** A computation respects a relation on worlds when the world it leaves
    is related to the world it started from, however it ends. *)
Definition respects (R : World -> World -> Prop) {A} (c : M BuildState A) : Prop :=
  forall s, R (world s) (world (snd (c s))).

(** ** Statements about the CAPEX constraint of a block *)

(** The block carries the linear CAPEX constraint: one scalar equality that
    holds exactly when CAPEX = size * unit_CAPEX. *)
Definition has_linear_capex (td : TecData) (b : Block) : Prop :=
  exists e,
    getattr "const_CAPEX" b = Some (CConstraint [(IScalar, e)]) /\
    forall rho, holds rho e <->
      (rho "var_CAPEX" IScalar ==
       rho "var_size" IScalar * unit_CAPEX_annual (Economics_of td))%Q.

(** The block carries a piecewise CAPEX constraint, of any kind. *)
Definition has_piecewise_capex (b : Block) : Prop :=
  exists p, getattr "const_CAPEX" b = Some (CPiecewise p).

(** ** Concrete hubs used to run the code *)

Open Scope Q_scope.

Definition boiler : TecData := {|
  TechnologyPerf_of := {|
    tec_type := "CONV1"; size_is_int := false;
    size_min := Number 2; size_max := Number 10;
    input_carrier := ["gas"]; output_carrier := ["heat"] |};
  Economics_of := {|
    CAPEX_model := 1; unit_CAPEX_annual := 100;
    OPEX_variable := 3; OPEX_fixed := 1 # 20 |}
|}.

Definition with_capex_model (m : Z) (td : TecData) : TecData := {|
  TechnologyPerf_of := TechnologyPerf_of td;
  Economics_of := {|
    CAPEX_model := m;
    unit_CAPEX_annual := unit_CAPEX_annual (Economics_of td);
    OPEX_variable := OPEX_variable (Economics_of td);
    OPEX_fixed := OPEX_fixed (Economics_of td) |}
|}.

Definition pv : TecData := {|
  TechnologyPerf_of := {|
    tec_type := "RES"; size_is_int := true;
    size_min := Collection [0; 1]; size_max := Collection [4; 8; 6];
    input_carrier := []; output_carrier := ["electricity"] |};
  Economics_of := {|
    CAPEX_model := 1; unit_CAPEX_annual := 50;
    OPEX_variable := 0; OPEX_fixed := 1 # 50 |}
|}.

(** Size bounds that cross, and a carrier the hub does not know. *)
Definition crossed : TecData := {|
  TechnologyPerf_of := {|
    tec_type := "CONV1"; size_is_int := false;
    size_min := Number 5; size_max := Number 1;
    input_carrier := ["hydrogen"]; output_carrier := ["heat"] |};
  Economics_of := {|
    CAPEX_model := 1; unit_CAPEX_annual := 100;
    OPEX_variable := 3; OPEX_fixed := 1 # 20 |}
|}.

(** An archetype tag outside the five known ones. *)
Definition heat_pump : TecData := {|
  TechnologyPerf_of := {|
    tec_type := "HP"; size_is_int := false;
    size_min := Number 0; size_max := Number 10;
    input_carrier := ["electricity"]; output_carrier := ["heat"] |};
  Economics_of := {|
    CAPEX_model := 1; unit_CAPEX_annual := 100;
    OPEX_variable := 3; OPEX_fixed := 1 # 20 |}
|}.

Definition hub_data : DataHandle := {|
  topology := {|
    nodes := ["onshore"];
    carriers := ["electricity"; "heat"; "gas"];
    timesteps := ["t1"; "t2"];
    technologies := {[ "onshore" := ["Boiler"; "PV"] ]} |};
  node_data := {[ "onshore" := ["temp_air"; "ws10"] ]};
  technology_data :=
    {[ "onshore" :=
         <[ "Boiler" := boiler ]>
         (<[ "PV" := pv ]>
         (<[ "Furnace" := with_capex_model 3 boiler ]>
         (<[ "Kiln" := with_capex_model 2 boiler ]>
         (<[ "Crossed" := crossed ]>
         {[ "HeatPump" := heat_pump ]})))) ]}
|}.

Definition hub_model : Model := {|
  set_nodes := ["onshore"];
  set_carriers := ["electricity"; "heat"; "gas"];
  set_t := [1%Z; 2%Z];
  set_climate_vars := ["temp_air"; "ws10"];
  set_technologies := [("onshore", ["Boiler"; "PV"])]
|}.

(** The module as the source shows it: neither breakpoint name is bound
    (so its [Piecewise] is never reached). *)
Definition module_as_shown : ModuleGlobals :=
  {| bp_x := None; bp_y := None; Piecewise := fun _ _ => PwBuilt |}.

(** A module that binds both breakpoint names, with a [Piecewise] that
    accepts them. *)
Definition breakpoints_bound : ModuleGlobals :=
  {| bp_x := Some [0; 5; 10]; bp_y := Some [0; 400; 700];
     Piecewise := fun _ _ => PwBuilt |}.

(** A module that binds only [bp_x]. *)
Definition bp_y_unbound : ModuleGlobals :=
  {| bp_x := Some [0; 5; 10]; bp_y := None; Piecewise := fun _ _ => PwBuilt |}.

Definition world0 : World := {| big_m_transformation_required := 0; printed := [] |}.

(** A hub whose node "offshore" has no entry in the technology-set
    mapping. *)
Definition hub_data_missing_set : DataHandle := {|
  topology := {|
    nodes := ["onshore"; "offshore"];
    carriers := ["electricity"];
    timesteps := ["t1"];
    technologies := {[ "onshore" := ["PV"] ]} |};
  node_data := {[ "onshore" := ["temp_air"] ]};
  technology_data := {[ "onshore" := {[ "PV" := pv ]} ]}
|}.


Close Scope Q_scope.

(** ** Further notions used to state properties of the code *)

(** A candidate solution satisfies a block when every row of every
    constraint component of the block holds. *)
Definition satisfies (rho : valuation) (b : Block) : Prop :=
  forall name rows i e,
    In (name, CConstraint rows) b -> In (i, e) rows -> holds rho e.

(** The world after a quiet computation: no [print] call of the code was
    executed, and the flag is as it was or has been set to 1. *)
Definition quiet (w w' : World) : Prop :=
  printed w' = printed w /\
  (big_m_transformation_required w' = big_m_transformation_required w \/
   big_m_transformation_required w' = 1%Z).

(** Every function of an archetype library respects a relation on worlds. *)
Definition library_respects (R : World -> World -> Prop)
    (L : ArchetypeLibrary) : Prop :=
  forall m d,
    respects R (constraints_tec_RES L m d) /\
    respects R (constraints_tec_CONV1 L m d) /\
    respects R (constraints_tec_CONV2 L m d) /\
    respects R (constraints_tec_CONV3 L m d) /\
    respects R (constraints_tec_STOR L m d).

(** The size unit of a technology (lines 90-93). *)
Definition unit_size_of (td : TecData) : unit_ :=
  if size_is_int (TechnologyPerf_of td) then dimensionless else MW.

(** The names the code before the archetype dispatch declares when it
    returns normally, in declaration order. *)
Definition declared_names (td : TecData) : list string :=
  ["para_size_min"; "para_size_max"; "para_output_max"; "para_unit_CAPEX";
   "para_OPEX_variable"; "para_OPEX_fixed";
   "set_input_carriers"; "set_output_carriers"]
  ++ (if String.eqb (tec_type (TechnologyPerf_of td)) "RES" then []
      else ["var_input"])
  ++ ["var_output"; "var_size"; "var_CAPEX"; "var_OPEX_variable";
      "var_OPEX_fixed"]
  ++ (if ((CAPEX_model (Economics_of td) =? 1)
          || (CAPEX_model (Economics_of td) =? 2))%Z
      then ["const_CAPEX"] else [])
  ++ ["const_OPEX_fixed"; "const_OPEX_variable"].

(** A technology with an empty size_min collection and one with a negative
    size_max. *)
Definition no_min : TecData := {|
  TechnologyPerf_of := {|
    tec_type := "CONV1"; size_is_int := false;
    size_min := Collection []; size_max := Number 10%Q;
    input_carrier := ["gas"]; output_carrier := ["heat"] |};
  Economics_of := Economics_of boiler
|}.

Definition negative_max : TecData := {|
  TechnologyPerf_of := {|
    tec_type := "CONV1"; size_is_int := false;
    size_min := Number 0%Q; size_max := Number (-1)%Q;
    input_carrier := ["gas"]; output_carrier := ["heat"] |};
  Economics_of := Economics_of boiler
|}.

(** A technology that lists a carrier twice. *)
Definition chp : TecData := {|
  TechnologyPerf_of := {|
    tec_type := "CONV2"; size_is_int := false;
    size_min := Number 0%Q; size_max := Number 4%Q;
    input_carrier := ["gas"; "gas"];
    output_carrier := ["heat"; "electricity"; "heat"] |};
  Economics_of := Economics_of boiler
|}.

(** An integer-sized technology that is not RES. *)
Definition engine : TecData := {|
  TechnologyPerf_of := {|
    tec_type := "CONV1"; size_is_int := true;
    size_min := Number 0%Q; size_max := Number 4%Q;
    input_carrier := ["gas"]; output_carrier := ["electricity"] |};
  Economics_of := Economics_of boiler
|}.

Definition faulty_data : DataHandle := {|
  topology := topology hub_data;
  node_data := node_data hub_data;
  technology_data :=
    {[ "onshore" :=
         <[ "Boiler" := boiler ]>
         (<[ "NoMin" := no_min ]>
         (<[ "NegativeMax" := negative_max ]>
         (<[ "NegativeKiln" := with_capex_model 2 negative_max ]>
         (<[ "Engine" := engine ]>
         (<[ "IntegerKiln" := with_capex_model 2 engine ]>
         {[ "CHP" := chp ]}))))) ]}
|}.

(** A candidate solution for the boiler: size 4, CAPEX 400, fixed OPEX 20,
    an output of 5 and a variable OPEX of 15 at every time step. *)
Definition boiler_solution : valuation := fun name _ =>
  if String.eqb name "var_size" then 4%Q
  else if String.eqb name "var_CAPEX" then 400%Q
  else if String.eqb name "var_OPEX_fixed" then 20%Q
  else if String.eqb name "var_output" then 5%Q
  else if String.eqb name "var_OPEX_variable" then 15%Q
  else 0%Q.

(** The technology sets the constructor builds for a list of nodes: each
    node with the set made from its entry of the mapping. *)
Definition technology_sets_of (sets : Topology) (idx : list string)
  : list (string * list string) :=
  List.map (fun n => (n, Set_initialize
                          (match technologies sets !! n with
                           | Some tecs => tecs
                           | None => []
                           end))) idx.

(** The model the constructor returns when it returns one. *)
Definition model_of (data : DataHandle) (cols : list string) : Model := {|
  set_nodes := Set_initialize (nodes (topology data));
  set_carriers := Set_initialize (carriers (topology data));
  set_t := RangeSet 1 (List.length (timesteps (topology data)));
  set_climate_vars := Set_initialize cols;
  set_technologies :=
    technology_sets_of (topology data) (Set_initialize (nodes (topology data)))
|}.

(** ** The components lines 94-150 declare, as values

    [lo] and [hi] are the resolved size bounds. *)

Definition declared_size_param (td : TecData) (q : Q) : Param :=
  {| p_domain := NonNegativeReals; p_value := q; p_units := unit_size_of td |}.

Definition declared_var_input (model : Model) (td : TecData) (lo hi : Q) : Var :=
  {| v_index := product_index (set_t model)
                  (Set_initialize (input_carrier (TechnologyPerf_of td)));
     v_within := NonNegativeReals;
     v_bounds := Some (BParam (declared_size_param td lo),
                       BParam (declared_size_param td hi));
     v_units := Some MW |}.

Definition declared_var_output (model : Model) (td : TecData) (hi : Q) : Var :=
  {| v_index := product_index (set_t model)
                  (Set_initialize (output_carrier (TechnologyPerf_of td)));
     v_within := NonNegativeReals;
     v_bounds := Some (BNumber 0,
                       BParam {| p_domain := NonNegativeReals; p_value := hi;
                                 p_units := MW |});
     v_units := Some MW |}.

Definition declared_var_size (td : TecData) (lo hi : Q) : Var :=
  {| v_index := [IScalar];
     v_within := if size_is_int (TechnologyPerf_of td)
                 then NonNegativeIntegers else NonNegativeReals;
     v_bounds := Some (BParam (declared_size_param td lo),
                       BParam (declared_size_param td hi));
     v_units := if size_is_int (TechnologyPerf_of td) then None else Some MW |}.

Definition declared_cost_var (idx : list index) : Var :=
  {| v_index := idx; v_within := Reals; v_bounds := None; v_units := Some EUR |}.

Definition declared_const_CAPEX (td : TecData) : Component :=
  CConstraint [(IScalar,
    {| e_lhs := EMul (EVar "var_size" IScalar)
                     (EParam {| p_domain := Reals;
                                p_value := unit_CAPEX_annual (Economics_of td);
                                p_units := unit_div EUR (unit_size_of td) |});
       e_rhs := EVar "var_CAPEX" IScalar |})].

Definition declared_const_OPEX_fixed (td : TecData) : Component :=
  CConstraint [(IScalar,
    {| e_lhs := EMul (EVar "var_CAPEX" IScalar)
                     (EParam {| p_domain := Reals;
                                p_value := OPEX_fixed (Economics_of td);
                                p_units := unit_div EUR EUR |});
       e_rhs := EVar "var_OPEX_fixed" IScalar |})].

Definition declared_const_OPEX_variable (model : Model) (td : TecData) : Component :=
  CConstraint
    (List.map (fun t =>
       (IT t,
        {| e_lhs := EMul (py_sum (List.map (fun car => EVar "var_output" (ITC t car))
                                    (Set_initialize (output_carrier (TechnologyPerf_of td)))))
                         (EParam {| p_domain := Reals;
                                    p_value := OPEX_variable (Economics_of td);
                                    p_units := unit_div EUR MWh |});
           e_rhs := EVar "var_OPEX_variable" (IT t) |})) (set_t model)).

(** The world the piecewise branch leaves: the flag is 1. *)
Definition flag_set (w : World) : World :=
  {| big_m_transformation_required := 1; printed := printed w |}.

(** The block holds every component lines 94-150 declare for a technology
    with a cost model other than the piecewise one, with the values of the
    data. *)
Definition has_common_components (model : Model) (td : TecData) (lo hi : Q)
    (b : Block) : Prop :=
  getattr "para_size_min" b = Some (CParam (declared_size_param td lo)) /\
  getattr "para_size_max" b = Some (CParam (declared_size_param td hi)) /\
  getattr "para_output_max" b =
    Some (CParam {| p_domain := NonNegativeReals; p_value := hi; p_units := MW |}) /\
  getattr "para_unit_CAPEX" b =
    Some (CParam {| p_domain := Reals;
                    p_value := unit_CAPEX_annual (Economics_of td);
                    p_units := unit_div EUR (unit_size_of td) |}) /\
  getattr "para_OPEX_variable" b =
    Some (CParam {| p_domain := Reals;
                    p_value := OPEX_variable (Economics_of td);
                    p_units := unit_div EUR MWh |}) /\
  getattr "para_OPEX_fixed" b =
    Some (CParam {| p_domain := Reals;
                    p_value := OPEX_fixed (Economics_of td);
                    p_units := unit_div EUR EUR |}) /\
  getattr "set_input_carriers" b =
    Some (CSet (Set_initialize (input_carrier (TechnologyPerf_of td)))) /\
  getattr "set_output_carriers" b =
    Some (CSet (Set_initialize (output_carrier (TechnologyPerf_of td)))) /\
  getattr "var_input" b =
    (if String.eqb (tec_type (TechnologyPerf_of td)) "RES" then None
     else Some (CVar (declared_var_input model td lo hi))) /\
  getattr "var_output" b = Some (CVar (declared_var_output model td hi)) /\
  getattr "var_size" b = Some (CVar (declared_var_size td lo hi)) /\
  getattr "var_CAPEX" b = Some (CVar (declared_cost_var [IScalar])) /\
  getattr "var_OPEX_variable" b =
    Some (CVar (declared_cost_var (List.map IT (set_t model)))) /\
  getattr "var_OPEX_fixed" b = Some (CVar (declared_cost_var [IScalar])) /\
  getattr "const_CAPEX" b =
    (if (CAPEX_model (Economics_of td) =? 1)%Z
     then Some (declared_const_CAPEX td) else None) /\
  getattr "const_OPEX_fixed" b = Some (declared_const_OPEX_fixed td) /\
  getattr "const_OPEX_variable" b = Some (declared_const_OPEX_variable model td).

(** ** Auxiliary facts: numbers, [min]/[max], sets and index products *)

Lemma Qltb_true x y : Qltb x y = true -> (x < y)%Q.
Proof.
  unfold Qltb. intros H. apply negb_true_iff in H.
  apply Qnot_le_lt. intros Hle. apply Qle_bool_iff in Hle. congruence.
Qed.

Lemma Qltb_false x y : Qltb x y = false -> (y <= x)%Q.
Proof.
  unfold Qltb. intros H. apply negb_false_iff in H. now apply Qle_bool_iff.
Qed.

Lemma py_min_from_In best l : In (py_min_from best l) (best :: l).
Proof.
  revert best. induction l as [|x r IH]; intros best; simpl.
  - now left.
  - destruct (IH (if Qltb x best then x else best)) as [H|H].
    + destruct (Qltb x best); rewrite <- H; auto.
    + auto.
Qed.

Lemma py_min_from_le_best best l : (py_min_from best l <= best)%Q.
Proof.
  revert best. induction l as [|x r IH]; intros best; simpl.
  - apply Qle_refl.
  - destruct (Qltb x best) eqn:E.
    + eapply Qle_trans; [apply IH|]. apply Qlt_le_weak. now apply Qltb_true.
    + apply IH.
Qed.

Lemma py_min_from_lower best l y :
  In y (best :: l) -> (py_min_from best l <= y)%Q.
Proof.
  revert best. induction l as [|x r IH]; intros best Hy.
  - destruct Hy as [<-|[]]. apply Qle_refl.
  - simpl. destruct Hy as [Hy|[Hy|Hy]].
    + subst y. eapply Qle_trans; [apply py_min_from_le_best|].
      destruct (Qltb x best) eqn:E; [|apply Qle_refl].
      apply Qlt_le_weak. now apply Qltb_true.
    + subst y. eapply Qle_trans; [apply py_min_from_le_best|].
      destruct (Qltb x best) eqn:E; [apply Qle_refl|].
      now apply Qltb_false.
    + apply IH. now right.
Qed.

Lemma py_max_from_In best l : In (py_max_from best l) (best :: l).
Proof.
  revert best. induction l as [|x r IH]; intros best; simpl.
  - now left.
  - destruct (IH (if Qltb best x then x else best)) as [H|H].
    + destruct (Qltb best x); rewrite <- H; auto.
    + auto.
Qed.

Lemma py_max_from_ge_best best l : (best <= py_max_from best l)%Q.
Proof.
  revert best. induction l as [|x r IH]; intros best; simpl.
  - apply Qle_refl.
  - destruct (Qltb best x) eqn:E.
    + eapply Qle_trans; [|apply IH]. apply Qlt_le_weak. now apply Qltb_true.
    + apply IH.
Qed.

Lemma py_max_from_upper best l y :
  In y (best :: l) -> (y <= py_max_from best l)%Q.
Proof.
  revert best. induction l as [|x r IH]; intros best Hy.
  - destruct Hy as [<-|[]]. apply Qle_refl.
  - simpl. destruct Hy as [Hy|[Hy|Hy]].
    + subst y. eapply Qle_trans; [|apply py_max_from_ge_best].
      destruct (Qltb best x) eqn:E; [|apply Qle_refl].
      apply Qlt_le_weak. now apply Qltb_true.
    + subst y. eapply Qle_trans; [|apply py_max_from_ge_best].
      destruct (Qltb best x) eqn:E; [apply Qle_refl|].
      now apply Qltb_false.
    + apply IH. now right.
Qed.

Lemma Set_initialize_In (c : string) (l : list string) :
  In c (Set_initialize l) <-> In c l.
Proof.
  induction l as [|x r IH]; simpl; [tauto|].
  rewrite List.filter_In, IH. split.
  - intros [H|[H _]]; auto.
  - intros [H|H]; [now left|].
    destruct (String.eqb c x) eqn:E.
    + left. symmetry. now apply String.eqb_eq.
    + right. split; [assumption|reflexivity].
Qed.

Lemma product_index_In (t : Z) (c : string) (ts : list Z) (cars : list string) :
  In (ITC t c) (product_index ts cars) <-> In t ts /\ In c cars.
Proof.
  unfold product_index. rewrite List.in_flat_map. split.
  - intros (t' & Ht & Hin). apply List.in_map_iff in Hin.
    destruct Hin as (c' & Heq & Hc). inversion Heq; subst. auto.
  - intros [Ht Hc]. exists t. split; [assumption|].
    apply List.in_map_iff. now exists c.
Qed.

Lemma product_index_shape (i : index) (ts : list Z) (cars : list string) :
  In i (product_index ts cars) ->
  exists t c, i = ITC t c /\ In t ts /\ In c cars.
Proof.
  unfold product_index. rewrite List.in_flat_map.
  intros (t & Ht & Hin). apply List.in_map_iff in Hin.
  destruct Hin as (c & Heq & Hc). exists t, c. auto.
Qed.

Lemma eval_fold_outputs rho t cars acc :
  (eval rho (List.fold_left EAdd
               (List.map (fun car => EVar "var_output" (ITC t car)) cars) acc)
   == eval rho acc + total_output rho t cars)%Q.
Proof.
  revert acc. induction cars as [|c r IH]; intros acc; simpl.
  - ring.
  - rewrite IH. simpl. ring.
Qed.

Lemma eval_py_sum_outputs rho t cars :
  (eval rho (py_sum (List.map (fun car => EVar "var_output" (ITC t car)) cars))
   == total_output rho t cars)%Q.
Proof.
  unfold py_sum. rewrite eval_fold_outputs. simpl. ring.
Qed.

Lemma Set_initialize_nil (l : list string) : Set_initialize l = [] <-> l = [].
Proof. destruct l; cbn; split; intros H; try discriminate; reflexivity. Qed.

Lemma product_index_nil (ts : list Z) (cars : list string) :
  product_index ts cars = [] <-> ts = [] \/ cars = [].
Proof.
  unfold product_index. split.
  - destruct ts as [|t r]; [now left|]. destruct cars as [|c cs]; [now right|].
    cbn. discriminate.
  - intros [->| ->]; [reflexivity|].
    induction ts as [|t r IH]; cbn; [reflexivity|exact IH].
Qed.

Lemma Set_initialize_NoDup (l : list string) : List.NoDup (Set_initialize l).
Proof.
  induction l as [|x r IH]; cbn; constructor.
  - rewrite List.filter_In. intros [_ H]. now rewrite String.eqb_refl in H.
  - now apply List.NoDup_filter.
Qed.

Lemma map_ITC_NoDup (t : Z) (cars : list string) :
  List.NoDup cars -> List.NoDup (List.map (ITC t) cars).
Proof.
  induction 1 as [|c r Hc Hr IH]; cbn; constructor; [|exact IH].
  rewrite List.in_map_iff. intros (c' & Heq & Hin). inversion Heq; subst.
  contradiction.
Qed.

Lemma product_index_NoDup (ts : list Z) (cars : list string) :
  List.NoDup ts -> List.NoDup cars -> List.NoDup (product_index ts cars).
Proof.
  intros Hts Hcars. unfold product_index.
  induction Hts as [|t r Ht Hr IH]; cbn; [constructor|].
  apply List.NoDup_app; [now apply map_ITC_NoDup|exact IH|].
  intros i Hi Hin. apply List.in_map_iff in Hi. destruct Hi as (c & <- & _).
  apply product_index_In in Hin. destruct Hin as [Hin _]. contradiction.
Qed.

(** The sum of the outputs over a carrier list does not depend on the
    order in which the carriers are listed. *)
Lemma total_output_perm rho t (l l' : list string) :
  Permutation l l' -> (total_output rho t l == total_output rho t l')%Q.
Proof.
  unfold total_output. induction 1 as [|c l l' _ IH|a c l|l1 l2 l3 _ IH1 _ IH2]; cbn.
  - reflexivity.
  - now rewrite IH.
  - ring.
  - now rewrite IH1.
Qed.

Lemma each_once_Set_initialize (raw : list string) :
  each_once raw (Set_initialize raw).
Proof.
  split; [apply Set_initialize_NoDup|]. intros c. apply Set_initialize_In.
Qed.

Lemma total_output_each_once rho t raw cars :
  each_once raw cars ->
  (total_output rho t cars == total_output rho t (Set_initialize raw))%Q.
Proof.
  intros [Hnd Hin]. apply total_output_perm.
  apply Permutation.NoDup_Permutation;
    [exact Hnd|apply Set_initialize_NoDup|].
  intros c. rewrite Hin. symmetry. apply Set_initialize_In.
Qed.

(** ** Auxiliary facts: running the monad *)

Lemma bind_Ok {S A B} (c : M S A) (k : A -> M S B) s a s' :
  c s = (Ok a, s') -> bind c k s = k a s'.
Proof. intros H. unfold bind. now rewrite H. Qed.

Lemma bind_Raise {S A B} (c : M S A) (k : A -> M S B) s e s' :
  c s = (Raise e, s') -> bind c k s = (Raise e, s').
Proof. intros H. unfold bind. now rewrite H. Qed.

Lemma for_each_app {S A B} (f : A -> M S B) (l1 l2 : list A) s ys s1 :
  for_each f l1 s = (Ok ys, s1) ->
  snd (for_each f (l1 ++ l2) s) = snd (for_each f l2 s1).
Proof.
  revert s ys. induction l1 as [|x r IH]; intros s ys H; simpl in *.
  - unfold ret in H. now inversion H.
  - unfold bind in *. destruct (f x s) as [[y|e] s2]; [|discriminate].
    destruct (for_each f r s2) as [[zs|e] s3] eqn:E; [|discriminate].
    unfold ret in H. inversion H; subst.
    specialize (IH s2 zs E).
    destruct (for_each f (r ++ l2) s2) as [[?|?] ?]; simpl in *; assumption.
Qed.

(** The rule of the variable-OPEX constraint reads two components and
    leaves the state alone, so the indexed constraint has one row per time
    step. *)
Lemma Constraint_indexed_run ts s cars rate :
  getattr "set_output_carriers" (b_tec s) = Some (CSet cars) ->
  getattr "para_OPEX_variable" (b_tec s) = Some (CParam rate) ->
  Constraint_indexed ts init_OPEX_variable s =
  (Ok (CConstraint
         (List.map (fun t =>
            (IT t,
             {| e_lhs := EMul (py_sum (List.map (fun car => EVar "var_output" (ITC t car)) cars))
                              (EParam rate);
                e_rhs := EVar "var_OPEX_variable" (IT t) |})) ts)), s).
Proof.
  intros Hc Hr. unfold Constraint_indexed.
  assert (H : for_each (fun t => let* e := init_OPEX_variable t in ret (IT t, e)) ts s
              = (Ok (List.map (fun t =>
            (IT t,
             {| e_lhs := EMul (py_sum (List.map (fun car => EVar "var_output" (ITC t car)) cars))
                              (EParam rate);
                e_rhs := EVar "var_OPEX_variable" (IT t) |})) ts), s)).
  { induction ts as [|t r IH]; simpl; [reflexivity|].
    unfold bind at 1. unfold bind at 1.
    unfold init_OPEX_variable at 1. unfold bind at 1. unfold get_set at 1.
    rewrite Hc. unfold bind at 1. unfold get_param at 1. rewrite Hr.
    unfold ret at 1. unfold ret at 1.
    unfold bind at 1. rewrite IH. reflexivity. }
  now rewrite (bind_Ok _ _ _ _ _ H).
Qed.

Arguments Constraint_indexed : simpl never.

(** Properties of the world that every step of a rule respects. *)
Section WorldRelation.

Variable R : World -> World -> Prop.
Hypothesis R_refl : forall w, R w w.
Hypothesis R_trans : forall w1 w2 w3, R w1 w2 -> R w2 w3 -> R w1 w3.

Lemma respects_ret {A} (a : A) : respects R (ret a).
Proof. intros s. apply R_refl. Qed.

Lemma respects_raise {A} e : respects R (@raise BuildState A e).
Proof. intros s. apply R_refl. Qed.

Lemma respects_lift {A} (r : result A) : respects R (lift_result r).
Proof. intros s. apply R_refl. Qed.

Lemma respects_bind {A B} (c : M BuildState A) (k : A -> M BuildState B) :
  respects R c -> (forall a, respects R (k a)) -> respects R (bind c k).
Proof.
  intros Hc Hk s. unfold bind. specialize (Hc s).
  destruct (c s) as [[a|e] s1]; simpl in *; [|assumption].
  eapply R_trans; [exact Hc|apply Hk].
Qed.

Lemma respects_setattr n c : respects R (setattr n c).
Proof. intros s. unfold setattr. destruct (construct c); apply R_refl. Qed.

Lemma respects_setattr_piecewise G n p : respects R (setattr_piecewise G n p).
Proof.
  intros s. unfold setattr_piecewise.
  destruct (Piecewise G (b_tec s) p); apply R_refl.
Qed.

Lemma respects_get_param n : respects R (get_param n).
Proof.
  intros s. unfold get_param.
  destruct (getattr n (b_tec s)) as [[]|]; apply R_refl.
Qed.

Lemma respects_get_set n : respects R (get_set n).
Proof.
  intros s. unfold get_set.
  destruct (getattr n (b_tec s)) as [[]|]; apply R_refl.
Qed.

Lemma respects_global {A} n (o : option A) : respects R (global n o).
Proof. destruct o; [apply respects_ret|apply respects_raise]. Qed.

Lemma respects_for_each {A B} (f : A -> M BuildState B) l :
  (forall x, respects R (f x)) -> respects R (for_each f l).
Proof.
  intros Hf. induction l as [|x r IH]; simpl.
  - apply respects_ret.
  - apply respects_bind; [apply Hf|]. intros y.
    apply respects_bind; [apply IH|]. intros ys. apply respects_ret.
Qed.

Lemma respects_region_parameters td : respects R (region_parameters td).
Proof.
  unfold region_parameters.
  repeat first [ apply respects_bind; [|intros ?]
               | apply respects_lift | apply respects_setattr ].
Qed.

Lemma respects_region_sets td : respects R (region_sets td).
Proof.
  unfold region_sets.
  repeat first [ apply respects_bind; [|intros ?] | apply respects_setattr ].
Qed.

Lemma respects_region_decision_variables model td :
  respects R (region_decision_variables model td).
Proof.
  unfold region_decision_variables.
  destruct (negb (String.eqb (tec_type (TechnologyPerf_of td)) "RES"));
  destruct (size_is_int (TechnologyPerf_of td));
  repeat first [ apply respects_bind; [|intros ?]
               | apply respects_get_param | apply respects_get_set
               | apply respects_setattr | apply respects_ret ].
Qed.

Lemma respects_Constraint_indexed ts :
  respects R (Constraint_indexed ts init_OPEX_variable).
Proof.
  unfold Constraint_indexed.
  apply respects_bind; [|intros ?; apply respects_ret].
  apply respects_for_each. intros t. unfold init_OPEX_variable.
  repeat first [ apply respects_bind; [|intros ?]
               | apply respects_get_param | apply respects_get_set
               | apply respects_ret ].
Qed.

(** The general constraints respect [R] as soon as the piecewise branch,
    the only writer of the flag, does. *)
Lemma respects_region_general_constraints G model td :
  (CAPEX_model (Economics_of td) = 2%Z -> respects R (set_big_m 1)) ->
  respects R (region_general_constraints G model td).
Proof.
  intros Hflag. unfold region_general_constraints.
  apply respects_bind.
  - destruct (CAPEX_model (Economics_of td) =? 1)%Z.
    + repeat first [ apply respects_bind; [|intros ?]
                   | apply respects_get_param | apply respects_setattr ].
    + destruct (CAPEX_model (Economics_of td) =? 2)%Z eqn:E.
      * apply Z.eqb_eq in E.
        repeat first [ apply respects_bind; [|intros ?]
                     | apply respects_global | apply respects_setattr_piecewise
                     | now apply Hflag ].
      * apply respects_ret.
  - intros _.
    repeat first [ apply respects_Constraint_indexed
                 | apply respects_bind; [|intros ?]
                 | apply respects_get_param | apply respects_setattr ].
Qed.

Lemma respects_common_part G model td :
  (CAPEX_model (Economics_of td) = 2%Z -> respects R (set_big_m 1)) ->
  respects R (common_part G model td).
Proof.
  intros Hflag. unfold common_part.
  repeat first [ apply respects_region_parameters | apply respects_region_sets
               | apply respects_region_decision_variables
               | now apply respects_region_general_constraints
               | apply respects_bind; [|intros ?] ].
Qed.

Lemma respects_region_technology_types L model td :
  (forall m d, respects R (constraints_tec_RES L m d) /\
               respects R (constraints_tec_CONV1 L m d) /\
               respects R (constraints_tec_CONV2 L m d) /\
               respects R (constraints_tec_CONV3 L m d) /\
               respects R (constraints_tec_STOR L m d)) ->
  respects R (region_technology_types L model td).
Proof.
  intros HL. destruct (HL model td) as (H1 & H2 & H3 & H4 & H5).
  unfold region_technology_types.
  repeat match goal with
         | |- respects R (if ?b then _ else _) => destruct b
         end; auto using respects_ret.
Qed.

Lemma respects_init_technology_block L G nodename model data tec :
  (forall td, get_tec_data data nodename tec = Ok td ->
              CAPEX_model (Economics_of td) = 2%Z -> respects R (set_big_m 1)) ->
  (forall m d, respects R (constraints_tec_RES L m d) /\
               respects R (constraints_tec_CONV1 L m d) /\
               respects R (constraints_tec_CONV2 L m d) /\
               respects R (constraints_tec_CONV3 L m d) /\
               respects R (constraints_tec_STOR L m d)) ->
  respects R (init_technology_block L G nodename model data tec).
Proof.
  intros Hflag HL. unfold init_technology_block.
  destruct (get_tec_data data nodename tec) as [td|e] eqn:Hd.
  - assert (Hk : respects R (common_part G model td ;;;
                           region_technology_types L model td)).
    { apply respects_bind; [|intros _].
      - apply respects_common_part. now apply Hflag.
      - now apply respects_region_technology_types. }
    intros s. exact (Hk s).
  - intros s. apply R_refl.
Qed.

(** The world after an indexed block is related to the world before it as
    soon as every rule invocation respects the relation. *)
Lemma respects_Block_indexed idx (r : string -> M BuildState unit) w :
  (forall i, In i idx -> respects R (r i)) ->
  R w (snd (Block_indexed idx r w)).
Proof.
  revert w. unfold Block_indexed.
  induction idx as [|i rest IH]; intros w H; simpl.
  - apply R_refl.
  - unfold bind at 1.
    assert (Hi : respects R (r i)) by (apply H; now left).
    specialize (Hi (fresh_block w)). simpl in Hi.
    destruct (r i (fresh_block w)) as [[u|e] s1]; simpl in *; [|exact Hi].
    unfold bind at 1.
    assert (IH' := IH (world s1) (fun j Hj => H j (or_intror Hj))).
    destruct (for_each _ rest (world s1)) as [[ys|e] w2]; simpl in *;
      eapply R_trans; eauto.
Qed.

End WorldRelation.


(** ** Running the code before the dispatch symbolically *)

Local Arguments Qle_bool : simpl never.
Local Arguments bind {S A B} c k s /.
Local Arguments ret {S A} a s /.
Local Arguments raise {S A} e s /.
Local Arguments lift_result {S A} r s /.
Local Arguments setattr name c s /.
Local Arguments setattr_piecewise G name p s /.
Local Arguments get_param name s /.
Local Arguments get_set name s /.
Local Arguments set_big_m v s /.
Local Arguments global {S A} name binding s /.
Local Arguments Param_new d v un /.
Local Arguments Set_indexed : simpl never.
Local Arguments product_index : simpl never.

Ltac run_params Hlo Hhi H0lo H0hi :=
  unfold common_part, region_parameters, region_sets,
    region_decision_variables, region_general_constraints;
  rewrite Hlo, Hhi; cbn;
  rewrite H0lo, H0hi; cbn.

Ltac unfold_declared :=
  unfold declared_var_input, declared_var_output, declared_var_size,
    declared_cost_var, declared_size_param, declared_const_CAPEX,
    declared_const_OPEX_fixed, declared_const_OPEX_variable,
    declared_piecewise, declared_names, unit_size_of, flag_set in *.

(** Case analysis on the cost-model branch of a run in the goal. *)
Ltac cost_branches G td :=
  destruct (CAPEX_model (Economics_of td) =? 1)%Z eqn:E1;
  [ assert (E2 : (CAPEX_model (Economics_of td) =? 2)%Z = false)
      by (apply Z.eqb_eq in E1; rewrite E1; reflexivity);
    rewrite ?E2; cbn
  | destruct (CAPEX_model (Economics_of td) =? 2)%Z eqn:E2; cbn;
    [ destruct (bp_x G) as [pts|] eqn:Ex; cbn;
      [ destruct (bp_y G) as [f|] eqn:Ey; cbn;
        [ match goal with
          | |- context [Piecewise G ?b ?p] =>
              destruct (Piecewise G b p) eqn:Ew; cbn
          end | ] | ] | ] ];
  try (erewrite Constraint_indexed_run by reflexivity; cbn).

Ltac read_run := first [intros [= <- <-] | intros [= <-]]; cbn.

(** Whatever the outcome, a technology whose size bounds resolve to
    non-negative numbers has its six parameters and its two carrier sets;
    when its size is continuous or it is RES it has its variables too, and
    the world is the one it started from unless the piecewise branch was
    entered. *)
Lemma common_part_declared G model td lo hi w r s :
  sizes_ok td lo hi ->
  common_part G model td (fresh_block w) = (r, s) ->
  (getattr "para_size_min" (b_tec s) = Some (CParam (declared_size_param td lo)) /\
   getattr "para_size_max" (b_tec s) = Some (CParam (declared_size_param td hi)) /\
   getattr "para_output_max" (b_tec s) =
     Some (CParam {| p_domain := NonNegativeReals; p_value := hi; p_units := MW |}) /\
   getattr "para_unit_CAPEX" (b_tec s) =
     Some (CParam {| p_domain := Reals;
                     p_value := unit_CAPEX_annual (Economics_of td);
                     p_units := unit_div EUR (unit_size_of td) |}) /\
   getattr "para_OPEX_variable" (b_tec s) =
     Some (CParam {| p_domain := Reals;
                     p_value := OPEX_variable (Economics_of td);
                     p_units := unit_div EUR MWh |}) /\
   getattr "para_OPEX_fixed" (b_tec s) =
     Some (CParam {| p_domain := Reals;
                     p_value := OPEX_fixed (Economics_of td);
                     p_units := unit_div EUR EUR |}) /\
   getattr "set_input_carriers" (b_tec s) =
     Some (CSet (Set_initialize (input_carrier (TechnologyPerf_of td)))) /\
   getattr "set_output_carriers" (b_tec s) =
     Some (CSet (Set_initialize (output_carrier (TechnologyPerf_of td))))) /\
  (units_ok td ->
   getattr "var_input" (b_tec s) =
     (if String.eqb (tec_type (TechnologyPerf_of td)) "RES" then None
      else Some (CVar (declared_var_input model td lo hi))) /\
   getattr "var_output" (b_tec s) = Some (CVar (declared_var_output model td hi)) /\
   getattr "var_size" (b_tec s) = Some (CVar (declared_var_size td lo hi)) /\
   getattr "var_CAPEX" (b_tec s) = Some (CVar (declared_cost_var [IScalar])) /\
   getattr "var_OPEX_variable" (b_tec s) =
     Some (CVar (declared_cost_var (List.map IT (set_t model)))) /\
   getattr "var_OPEX_fixed" (b_tec s) = Some (CVar (declared_cost_var [IScalar])) /\
   world s = (if (CAPEX_model (Economics_of td) =? 2)%Z then flag_set w else w)).
Proof.
  intros (Hlo & Hhi & H0lo & H0hi).
  apply Qle_bool_iff in H0lo, H0hi.
  unfold units_ok. unfold_declared.
  run_params Hlo Hhi H0lo H0hi.
  destruct (String.eqb (tec_type (TechnologyPerf_of td)) "RES") eqn:Et;
  destruct (size_is_int (TechnologyPerf_of td)) eqn:Ei; cbn.
  3: destruct (product_index (set_t model)
                 (Set_initialize (input_carrier (TechnologyPerf_of td))))
       as [|i0 idx] eqn:Ep; cbn;
     [|read_run; split; [repeat split; reflexivity|];
       intros Hu; specialize (Hu eq_refl); rewrite Hu in Et; discriminate].
  all: cost_branches G td.
  all: read_run; (split; [repeat split; reflexivity|]).
  all: intros Hu; try (specialize (Hu eq_refl); rewrite Hu in Et; discriminate).
  all: repeat split; reflexivity.
Qed.

(** When the size bounds resolve to non-negative numbers, the bounds of
    the input variable are not rejected and the cost model is not the
    piecewise one, the code before the dispatch returns normally and leaves
    the world as it was. *)
Lemma common_part_returns G model td lo hi w :
  sizes_ok td lo hi ->
  units_ok td \/ no_input_index model td ->
  CAPEX_model (Economics_of td) <> 2%Z ->
  exists s, common_part G model td (fresh_block w) = (Ok tt, s) /\ world s = w.
Proof.
  intros (Hlo & Hhi & H0lo & H0hi) Hu Hc.
  apply Qle_bool_iff in H0lo, H0hi. apply Z.eqb_neq in Hc.
  unfold units_ok, no_input_index in Hu.
  run_params Hlo Hhi H0lo H0hi. rewrite Hc.
  destruct (String.eqb (tec_type (TechnologyPerf_of td)) "RES") eqn:Et;
  destruct (size_is_int (TechnologyPerf_of td)) eqn:Ei; cbn.
  3: { assert (Ep : product_index (set_t model)
                      (Set_initialize (input_carrier (TechnologyPerf_of td))) = []).
       { apply product_index_nil.
         destruct Hu as [Hu|[Hu|Hu]];
           [ specialize (Hu eq_refl); rewrite Hu in Et; discriminate
           | now left | right; now rewrite Hu ]. }
       rewrite Ep. cbn.
       destruct (CAPEX_model (Economics_of td) =? 1)%Z eqn:E1; cbn.
       all: erewrite Constraint_indexed_run by reflexivity; cbn.
       all: eexists; split; reflexivity. }
  all: destruct (CAPEX_model (Economics_of td) =? 1)%Z eqn:E1; cbn.
  all: erewrite Constraint_indexed_run by reflexivity; cbn.
  all: eexists; split; reflexivity.
Qed.

Lemma common_part_accepts G model td lo hi w :
  accepted td lo hi ->
  exists s, common_part G model td (fresh_block w) = (Ok tt, s) /\ world s = w.
Proof.
  intros (Hs & Hu & Hc). apply (common_part_returns G model td lo hi w); auto.
Qed.

(** What a normal return of the code before the dispatch tells: the size
    bounds resolved to non-negative numbers, the bounds of the input
    variable were not rejected, the cost-model branch went through, and
    the block holds exactly the declared names with the cost constraints
    of lines 133-150. *)
Lemma common_part_Ok_inv G model td w s :
  common_part G model td (fresh_block w) = (Ok tt, s) ->
  (exists lo hi, sizes_ok td lo hi) /\
  (units_ok td \/ no_input_index model td) /\
  List.map fst (b_tec s) = declared_names td /\
  world s = (if (CAPEX_model (Economics_of td) =? 2)%Z then flag_set w else w) /\
  (if (CAPEX_model (Economics_of td) =? 1)%Z
   then getattr "const_CAPEX" (b_tec s) = Some (declared_const_CAPEX td)
   else if (CAPEX_model (Economics_of td) =? 2)%Z
   then exists pts f,
          bp_x G = Some pts /\ bp_y G = Some f /\
          getattr "const_CAPEX" (b_tec s)
            = Some (CPiecewise (declared_piecewise pts f))
   else getattr "const_CAPEX" (b_tec s) = None) /\
  getattr "const_OPEX_fixed" (b_tec s) = Some (declared_const_OPEX_fixed td) /\
  getattr "const_OPEX_variable" (b_tec s)
    = Some (declared_const_OPEX_variable model td).
Proof.
  unfold units_ok, no_input_index, sizes_ok. unfold_declared.
  unfold common_part, region_parameters, region_sets,
    region_decision_variables, region_general_constraints.
  destruct (resolve_size_min (size_min (TechnologyPerf_of td))) as [lo|e] eqn:Hlo;
    cbn; [|discriminate].
  destruct (resolve_size_max (size_max (TechnologyPerf_of td))) as [hi|e] eqn:Hhi;
    cbn; [|discriminate].
  destruct (Qle_bool 0 lo) eqn:H0lo; cbn; [|discriminate].
  destruct (Qle_bool 0 hi) eqn:H0hi; cbn; [|discriminate].
  apply Qle_bool_iff in H0lo, H0hi.
  destruct (String.eqb (tec_type (TechnologyPerf_of td)) "RES") eqn:Et;
  destruct (size_is_int (TechnologyPerf_of td)) eqn:Ei; cbn.
  3: destruct (product_index (set_t model)
                 (Set_initialize (input_carrier (TechnologyPerf_of td))))
       as [|i0 idx] eqn:Ep; cbn; [|discriminate].
  all: cost_branches G td; try discriminate.
  all: read_run.
  all: (split; [exists lo, hi; auto|]).
  all: (split;
    [ first [ left; intros Hi; first [discriminate Hi | now apply String.eqb_eq]
            | right; apply product_index_nil in Ep;
              destruct Ep as [Ep|Ep]; [now left|right];
              now apply Set_initialize_nil ]
    | ]).
  all: repeat split; try reflexivity.
  all: eexists; eexists; repeat split; reflexivity.
Qed.

(** With the piecewise model and a breakpoint name unbound, the code before
    the dispatch stops at the first unbound name, after the flag has been
    written and before any cost constraint is declared. *)
Lemma common_part_unbound G model td lo hi w :
  sizes_ok td lo hi -> units_ok td ->
  CAPEX_model (Economics_of td) = 2%Z ->
  bp_x G = None \/ bp_y G = None ->
  exists s,
    common_part G model td (fresh_block w) =
      (Raise (NameError (if bp_x G is Some _ then "bp_y" else "bp_x")), s) /\
    world s = flag_set w /\
    getattr "const_CAPEX" (b_tec s) = None /\
    getattr "const_OPEX_fixed" (b_tec s) = None /\
    getattr "const_OPEX_variable" (b_tec s) = None.
Proof.
  intros (Hlo & Hhi & H0lo & H0hi) Hu Hc Hun.
  apply Qle_bool_iff in H0lo, H0hi. unfold units_ok in Hu. unfold flag_set.
  run_params Hlo Hhi H0lo H0hi. rewrite Hc. cbn.
  destruct (String.eqb (tec_type (TechnologyPerf_of td)) "RES") eqn:Et;
  destruct (size_is_int (TechnologyPerf_of td)) eqn:Ei; cbn.
  3: specialize (Hu eq_refl); rewrite Hu in Et; discriminate.
  all: destruct (bp_x G) as [pts|]; cbn;
       [ destruct (bp_y G) as [f|]; cbn;
         [ destruct Hun; discriminate | ] | ];
       eexists; repeat split; reflexivity.
Qed.

(** An integer-sized technology that is not RES and whose input variable
    has an index stops at the input variable: the size parameters have no
    unit and cannot bound a variable in MW. The block keeps the six
    parameters, the two carrier sets and the input variable that failed. *)
Lemma common_part_units_error G model td lo hi w :
  sizes_ok td lo hi ->
  size_is_int (TechnologyPerf_of td) = true ->
  tec_type (TechnologyPerf_of td) <> "RES" ->
  ~ no_input_index model td ->
  exists msg s,
    common_part G model td (fresh_block w) = (Raise (InconsistentUnitsError msg), s) /\
    world s = w /\
    List.map fst (b_tec s) =
      ["para_size_min"; "para_size_max"; "para_output_max"; "para_unit_CAPEX";
       "para_OPEX_variable"; "para_OPEX_fixed";
       "set_input_carriers"; "set_output_carriers"; "var_input"] /\
    getattr "var_input" (b_tec s)
      = Some (CFailed (CVar (declared_var_input model td lo hi))).
Proof.
  intros (Hlo & Hhi & H0lo & H0hi) Ei Et Hidx.
  apply Qle_bool_iff in H0lo, H0hi. apply String.eqb_neq in Et.
  unfold_declared.
  run_params Hlo Hhi H0lo H0hi. rewrite Et, Ei. cbn.
  destruct (product_index (set_t model)
              (Set_initialize (input_carrier (TechnologyPerf_of td))))
    as [|i0 idx] eqn:Ep; cbn.
  - exfalso. apply Hidx. apply product_index_nil in Ep.
    destruct Ep as [Ep|Ep]; [now left|right]. now apply Set_initialize_nil.
  - eexists. eexists. repeat split; reflexivity.
Qed.

(** Whatever the technology and however the code before the dispatch ends,
    an output or input variable on the block is indexed by the pairs of a
    time step and a carrier of the technology's own carrier set, an input
    variable exists only on a technology that is not RES, a CAPEX
    component is the one the cost-model selector chooses, and the
    variable-OPEX constraint, declared last, is there only after a normal
    return. *)
Lemma common_part_any G model td w r s :
  common_part G model td (fresh_block w) = (r, s) ->
  (forall c, getattr "var_output" (b_tec s) = Some c ->
     exists v, c = CVar v /\
       v_index v = product_index (set_t model)
                     (Set_initialize (output_carrier (TechnologyPerf_of td)))) /\
  (forall c, getattr "var_input" (b_tec s) = Some c ->
     tec_type (TechnologyPerf_of td) <> "RES" /\
     exists v, (c = CVar v \/ c = CFailed (CVar v)) /\
       v_index v = product_index (set_t model)
                     (Set_initialize (input_carrier (TechnologyPerf_of td)))) /\
  (forall c, getattr "const_CAPEX" (b_tec s) = Some c ->
     (CAPEX_model (Economics_of td) = 1%Z /\ c = declared_const_CAPEX td) \/
     (CAPEX_model (Economics_of td) = 2%Z /\
      exists pts f, bp_x G = Some pts /\ bp_y G = Some f /\
        (c = CPiecewise (declared_piecewise pts f) \/
         c = CFailed (CPiecewise (declared_piecewise pts f))))) /\
  (forall c, getattr "const_OPEX_variable" (b_tec s) = Some c -> r = Ok tt).
Proof.
  unfold_declared.
  unfold common_part, region_parameters, region_sets,
    region_decision_variables, region_general_constraints.
  destruct (resolve_size_min (size_min (TechnologyPerf_of td))) as [lo|e] eqn:Hlo;
    cbn; [|read_run; repeat split; discriminate].
  destruct (resolve_size_max (size_max (TechnologyPerf_of td))) as [hi|e] eqn:Hhi;
    cbn; [|read_run; repeat split; discriminate].
  destruct (Qle_bool 0 lo) eqn:H0lo; cbn; [|read_run; repeat split; discriminate].
  destruct (Qle_bool 0 hi) eqn:H0hi; cbn; [|read_run; repeat split; discriminate].
  destruct (String.eqb (tec_type (TechnologyPerf_of td)) "RES") eqn:Et;
  destruct (size_is_int (TechnologyPerf_of td)) eqn:Ei; cbn.
  3: destruct (product_index (set_t model)
                 (Set_initialize (input_carrier (TechnologyPerf_of td))))
       as [|i0 idx] eqn:Ep; cbn.
  4: { read_run. apply String.eqb_neq in Et.
       split; [discriminate|]. split; [|split; discriminate].
       intros c [= <-]. split; [exact Et|].
       eexists. split; [right; reflexivity|reflexivity]. }
  all: cost_branches G td.
  all: read_run.
  all: try apply String.eqb_neq in Et.
  all: apply Z.eqb_eq in E1 || apply Z.eqb_neq in E1.
  all: try (apply Z.eqb_eq in E2).
  all: (split; [intros c [= <-]; eexists; split; reflexivity|]).
  all: (split;
    [ first [ discriminate
            | intros c [= <-]; split; [exact Et|];
              eexists; split; [left; reflexivity|reflexivity] ]
    | ]).
  all: (split;
    [ first [ discriminate
            | intros c [= <-];
              first [ left; split; [assumption|reflexivity]
                    | right; split; [assumption|];
                      eexists; eexists; split; [reflexivity|];
                      split; [reflexivity|];
                      first [left; reflexivity|right; reflexivity] ] ]
    | ]).
  all: first [discriminate | intros; reflexivity].
Qed.

(** ** The rule as a whole *)

Lemma init_technology_block_run L G nodename model data tec td s :
  get_tec_data data nodename tec = Ok td ->
  init_technology_block L G nodename model data tec s =
  (common_part G model td ;;; region_technology_types L model td) s.
Proof. intros H. unfold init_technology_block. rewrite H. reflexivity. Qed.

Lemma keeps_common_technology_types L model td :
  library_keeps_common L -> keeps_common (region_technology_types L model td).
Proof.
  intros HL. destruct (HL model td) as (H1 & H2 & H3 & H4 & H5).
  unfold region_technology_types.
  repeat match goal with
         | |- keeps_common (if ?b then _ else _) => destruct b
         end; auto.
  intros s n _. reflexivity.
Qed.

(** Under the library contract, a component of the code before the
    dispatch read after the whole rule is the one that code left, however
    the rule ends. *)
Lemma init_technology_block_getattr L G nodename model data tec td w r s0 n :
  library_keeps_common L ->
  get_tec_data data nodename tec = Ok td ->
  common_part G model td (fresh_block w) = (r, s0) ->
  In n common_names ->
  getattr n (b_tec (snd (init_technology_block L G nodename model data tec (fresh_block w))))
  = getattr n (b_tec s0).
Proof.
  intros HL Hd Hrun Hn.
  rewrite (init_technology_block_run _ _ _ _ _ _ _ _ Hd).
  destruct r as [[]|e].
  - rewrite (bind_Ok _ _ _ _ _ Hrun). now apply keeps_common_technology_types.
  - now rewrite (bind_Raise _ _ _ _ _ Hrun).
Qed.

(** A normal return of the rule is a normal return of the code before the
    dispatch followed by a normal return of the dispatch. *)
Lemma init_technology_block_Ok_inv L G nodename model data tec td s0 s :
  get_tec_data data nodename tec = Ok td ->
  init_technology_block L G nodename model data tec s0 = (Ok tt, s) ->
  exists s1, common_part G model td s0 = (Ok tt, s1) /\
             region_technology_types L model td s1 = (Ok tt, s).
Proof.
  intros Hd. rewrite (init_technology_block_run _ _ _ _ _ _ _ _ Hd).
  unfold bind. destruct (common_part G model td s0) as [[[]|e] s1]; [|discriminate].
  intros H. exists s1. auto.
Qed.

Lemma stub_library_keeps_common : library_keeps_common stub_library.
Proof.
  intros model td. repeat split; intros s n Hn; cbn;
    revert Hn; generalize (b_tec s) as b; intros b Hn;
    (induction b as [|[m c] r IH]; cbn;
     [ repeat (destruct Hn as [<-|Hn]; [reflexivity|]); destruct Hn
     | destruct (String.eqb m n); [reflexivity|exact IH] ]).
Qed.

Lemma stub_library_keeps_flag : library_keeps_flag stub_library.
Proof. intros model td. repeat split; intros s; reflexivity. Qed.

(** On an accepted technology the code before the dispatch returns
    normally, leaves the world as it was and leaves a block with exactly
    the declared names and components. *)
Lemma common_part_built G model td lo hi w :
  accepted td lo hi ->
  exists s,
    common_part G model td (fresh_block w) = (Ok tt, s) /\
    world s = w /\
    List.map fst (b_tec s) = declared_names td /\
    has_common_components model td lo hi (b_tec s).
Proof.
  intros Ha. destruct (common_part_accepts G model td lo hi w Ha) as (s & Hrun & Hw).
  destruct Ha as (Hs & Hu & Hc).
  destruct (common_part_declared G model td lo hi w _ s Hs Hrun) as (Hp & Hv).
  destruct (Hv Hu) as (V1 & V2 & V3 & V4 & V5 & V6 & _).
  destruct Hp as (P1 & P2 & P3 & P4 & P5 & P6 & P7 & P8).
  destruct (common_part_Ok_inv G model td w s Hrun)
    as (_ & _ & Hn & _ & Hcap & Hfix & Hvar).
  exists s. split; [exact Hrun|]. split; [exact Hw|]. split; [exact Hn|].
  apply Z.eqb_neq in Hc. rewrite Hc in Hcap.
  unfold has_common_components.
  repeat (split; [assumption|]).
  split; [|split; assumption].
  destruct (CAPEX_model (Economics_of td) =? 1)%Z; exact Hcap.
Qed.

Lemma sizes_ok_boiler : sizes_ok boiler 2 10.
Proof. repeat split; try reflexivity; vm_compute; discriminate. Qed.

Lemma sizes_ok_pv : sizes_ok pv 0 8.
Proof. repeat split; try reflexivity; vm_compute; discriminate. Qed.

Lemma sizes_ok_chp : sizes_ok chp 0 4.
Proof. repeat split; try reflexivity; vm_compute; discriminate. Qed.

Lemma sizes_ok_crossed : sizes_ok crossed 5 1.
Proof. repeat split; try reflexivity; vm_compute; discriminate. Qed.

Lemma units_ok_continuous td :
  size_is_int (TechnologyPerf_of td) = false -> units_ok td.
Proof. intros H E. rewrite H in E. discriminate. Qed.

Lemma units_ok_RES td :
  tec_type (TechnologyPerf_of td) = "RES" -> units_ok td.
Proof. intros H _. exact H. Qed.

Lemma accepted_boiler : accepted boiler 2 10.
Proof.
  split; [exact sizes_ok_boiler|]. split; [now apply units_ok_continuous|].
  vm_compute. discriminate.
Qed.

Lemma accepted_pv : accepted pv 0 8.
Proof.
  split; [exact sizes_ok_pv|]. split; [now apply units_ok_RES|].
  vm_compute. discriminate.
Qed.

Lemma accepted_crossed : accepted crossed 5 1.
Proof.
  split; [exact sizes_ok_crossed|]. split; [now apply units_ok_continuous|].
  vm_compute. discriminate.
Qed.

Lemma capex_ok_linear G td :
  CAPEX_model (Economics_of td) <> 2%Z -> capex_ok G td.
Proof. intros H E. contradiction. Qed.

(** Admissible values of a variable lie between its bounds. *)
Lemma admissible_bounds v lo hi x :
  v_bound_values v = Some (lo, hi) ->
  admissible v x -> (lo <= x)%Q /\ (x <= hi)%Q.
Proof.
  unfold v_bound_values, admissible.
  destruct (v_bounds v) as [[l h]|]; [|discriminate].
  intros [= <- <-] [_ H]. exact H.
Qed.

(** ** Properties of the builder and of the set construction *)

(** C1 (as stated, refuted). The input variable the rule creates for a
    technology that is not RES does not have lower bound 0. On the boiler
    of [hub_data] (CONV1, size_min = 2, size_max = 10, input carrier gas)
    [var_input] is declared over the non-negative reals with bounds
    (2, 10), so the values 0 and 1, which lie between 0 and the size bound,
    are not admissible. *)
Lemma input_lower_bound_is_size_min :
  exists s v,
    init_technology_block stub_library module_as_shown "onshore" hub_model
      hub_data "Boiler" (fresh_block world0) = (Ok tt, s) /\
    getattr "var_input" (b_tec s) = Some (CVar v) /\
    In (ITC 1 "gas") (v_index v) /\
    v_within v = NonNegativeReals /\
    v_bound_values v = Some (2, 10)%Q /\
    ~ admissible v 0 /\ ~ admissible v 1 /\ admissible v 2.
Proof.
  eexists. eexists. split; [vm_compute; reflexivity|].
  split; [vm_compute; reflexivity|].
  split; [cbn; auto|]. split; [reflexivity|]. split; [reflexivity|].
  unfold admissible; cbn. repeat split.
  - intros (_ & H & _). apply Qle_bool_iff in H. vm_compute in H. discriminate.
  - intros (_ & H & _). apply Qle_bool_iff in H. vm_compute in H. discriminate.
  - apply Qle_bool_iff. reflexivity.
  - apply Qle_bool_iff. reflexivity.
Qed.

(** C1 (amended). For every technology that is not of archetype RES, whose
    size is continuous and whose size bounds resolve to non-negative
    numbers, the input variable is declared over the non-negative reals
    with the bounds (size_min, size_max) as resolved, the same for every
    time step and every declared input carrier: its upper bound is the size
    bound and its lower bound is size_min, which is at least 0. Every
    admissible value x therefore satisfies 0 <= size_min <= x <= size_max.
    This holds however the rest of the rule ends. *)
Theorem input_bounds_are_size_bounds L G nodename model data tec td lo hi w :
  library_keeps_common L ->
  get_tec_data data nodename tec = Ok td ->
  sizes_ok td lo hi ->
  size_is_int (TechnologyPerf_of td) = false ->
  tec_type (TechnologyPerf_of td) <> "RES" ->
  exists v,
    getattr "var_input"
      (b_tec (snd (init_technology_block L G nodename model data tec (fresh_block w))))
      = Some (CVar v) /\
    (forall t c, In t (set_t model) ->
                 In c (input_carrier (TechnologyPerf_of td)) ->
                 In (ITC t c) (v_index v)) /\
    v_within v = NonNegativeReals /\ v_bound_values v = Some (lo, hi) /\
    forall x, admissible v x -> (0 <= lo)%Q /\ (lo <= x)%Q /\ (x <= hi)%Q.
Proof.
  intros HL Hd Hs Hi Hres.
  destruct (common_part G model td (fresh_block w)) as [r s0] eqn:Hrun.
  destruct (common_part_declared G model td lo hi w r s0 Hs Hrun) as (_ & Hv).
  destruct (Hv (units_ok_continuous td Hi)) as (Hin & _).
  rewrite (init_technology_block_getattr L G nodename model data tec td w r s0
             "var_input" HL Hd Hrun) by (cbn; tauto).
  rewrite Hin. apply String.eqb_neq in Hres. rewrite Hres.
  eexists. split; [reflexivity|]. split.
  { intros t c Ht Hcar. cbn [v_index declared_var_input].
    apply product_index_In. split; [exact Ht|now apply Set_initialize_In]. }
  split; [reflexivity|]. split; [reflexivity|].
  intros x Hx.
  destruct (admissible_bounds (declared_var_input model td lo hi) lo hi x
              eq_refl Hx) as [H1 H2].
  destruct Hs as (_ & _ & H0 & _). auto.
Qed.

Lemma input_bounds_are_size_bounds_witness :
  exists v,
    getattr "var_input"
      (b_tec (snd (init_technology_block stub_library module_as_shown "onshore"
                     hub_model hub_data "Boiler" (fresh_block world0))))
      = Some (CVar v) /\
    v_bound_values v = Some (2, 10)%Q /\
    forall x, admissible v x -> (2 <= x)%Q /\ (x <= 10)%Q.
Proof.
  destruct (input_bounds_are_size_bounds stub_library module_as_shown "onshore"
              hub_model hub_data "Boiler" boiler 2%Q 10%Q world0
              stub_library_keeps_common eq_refl sizes_ok_boiler eq_refl)
    as (v & H1 & _ & _ & H2 & H3).
  - vm_compute. discriminate.
  - exists v. split; [exact H1|]. split; [exact H2|].
    intros x Hx. exact (proj2 (H3 x Hx)).
Defined.

(** C2 (as stated, refuted). Size bounds given as collections do not always
    resolve to resolved_min <= resolved_max: the two collections are
    separate inputs. With size_min = [5, 6] and size_max = [1, 2] the
    resolved values are 5 and 2. *)
Lemma resolved_bounds_can_cross :
  ~ (forall lmin lmax a b,
       resolve_size_min (Collection lmin) = Ok a ->
       resolve_size_max (Collection lmax) = Ok b ->
       (a <= b)%Q).
Proof.
  intros H.
  specialize (H [5; 6]%Q [1; 2]%Q 5%Q 2%Q eq_refl eq_refl).
  apply Qle_bool_iff in H. vm_compute in H. discriminate.
Qed.

(** C2 (amended). A size bound given as a single number is used as it is.
    A bound given as a non-empty collection resolves to an element of the
    collection that is a lower bound of it for size_min (its minimum) and an
    upper bound of it for size_max (its maximum). resolved_min <=
    resolved_max holds when the two collections have an element in common,
    in particular when they are the same collection. An empty collection
    raises ValueError. *)
Theorem resolved_size_bounds :
  (forall q, resolve_size_min (Number q) = Ok q /\
             resolve_size_max (Number q) = Ok q) /\
  (forall x l, exists a b,
     resolve_size_min (Collection (x :: l)) = Ok a /\
     resolve_size_max (Collection (x :: l)) = Ok b /\
     In a (x :: l) /\ In b (x :: l) /\
     (forall y, In y (x :: l) -> (a <= y)%Q /\ (y <= b)%Q) /\
     (a <= b)%Q) /\
  (forall lmin lmax a b y,
     resolve_size_min (Collection lmin) = Ok a ->
     resolve_size_max (Collection lmax) = Ok b ->
     In y lmin -> In y lmax -> (a <= b)%Q) /\
  (exists msg, resolve_size_min (Collection []) = Raise (ValueError msg)) /\
  (exists msg, resolve_size_max (Collection []) = Raise (ValueError msg)).
Proof.
  split; [intros q; split; reflexivity|].
  split.
  { intros x l. exists (py_min_from x l), (py_max_from x l).
    split; [reflexivity|]. split; [reflexivity|].
    split; [apply py_min_from_In|]. split; [apply py_max_from_In|].
    split.
    - intros y Hy. split; [now apply py_min_from_lower|now apply py_max_from_upper].
    - eapply Qle_trans; [apply py_min_from_le_best|apply py_max_from_ge_best]. }
  split.
  { intros lmin lmax a b y Ha Hb Hmin Hmax.
    destruct lmin as [|x l]; [destruct Hmin|].
    destruct lmax as [|x' l']; [destruct Hmax|].
    cbn in Ha, Hb. inversion Ha; inversion Hb; subst.
    apply Qle_trans with y;
      [apply py_min_from_lower; exact Hmin | apply py_max_from_upper; exact Hmax]. }
  split; eexists; reflexivity.
Qed.

Lemma resolved_size_bounds_witness : (2 <= 9)%Q.
Proof.
  destruct resolved_size_bounds as (_ & _ & H & _).
  apply (H [2; 5]%Q [9; 5]%Q 2%Q 9%Q 5%Q);
    [reflexivity | reflexivity | cbn; auto | cbn; auto].
Defined.

(** C3 (as stated, refuted). A technology whose cost-model selector is
    neither 1 nor 2 is built without any CAPEX constraint: on the furnace of
    [hub_data] (the boiler with capex_model = 3) the rule returns normally
    and the block has no component named const_CAPEX, so neither the linear
    nor the piecewise form is present. *)
Lemma no_capex_constraint_for_other_models :
  exists s,
    init_technology_block stub_library module_as_shown "onshore" hub_model
      hub_data "Furnace" (fresh_block world0) = (Ok tt, s) /\
    getattr "const_CAPEX" (b_tec s) = None /\
    ~ has_linear_capex (with_capex_model 3 boiler) (b_tec s) /\
    ~ has_piecewise_capex (b_tec s).
Proof.
  eexists. split; [vm_compute; reflexivity|].
  split; [vm_compute; reflexivity|].
  split; [intros (e & H & _)|intros (p & H)]; vm_compute in H; discriminate.
Qed.

(** C3 (amended). The selector decides the CAPEX constraint of the
    submodel and there is never more than one form, whatever the
    technology and however the rule ends. capex_model = 1 never gives a
    piecewise constraint, and gives the linear constraint
    CAPEX = size * unit_CAPEX whenever the size bounds resolve to
    non-negative numbers and the size is continuous or the archetype is
    RES. capex_model = 2 never gives a linear constraint; when a breakpoint
    name is unbound it gives no CAPEX component at all, and when the rule
    returns normally the component is the piecewise relation of CAPEX over
    size with the breakpoints bp_x, the values bp_y, type EQ and
    representation SOS2. Any other selector gives no CAPEX constraint at
    all. *)
Theorem capex_constraint_by_model L G nodename model data tec td w :
  library_keeps_common L ->
  get_tec_data data nodename tec = Ok td ->
  let run := init_technology_block L G nodename model data tec (fresh_block w) in
  let b := b_tec (snd run) in
  (CAPEX_model (Economics_of td) = 1%Z ->
     ~ has_piecewise_capex b /\
     (forall lo hi, sizes_ok td lo hi -> units_ok td -> has_linear_capex td b)) /\
  (CAPEX_model (Economics_of td) = 2%Z ->
     ~ has_linear_capex td b /\
     (bp_x G = None \/ bp_y G = None -> getattr "const_CAPEX" b = None) /\
     (fst run = Ok tt ->
      exists pts f,
        bp_x G = Some pts /\ bp_y G = Some f /\
        getattr "const_CAPEX" b =
          Some (CPiecewise {| pw_yvar := "var_CAPEX"; pw_xvar := "var_size";
                              pw_pts := pts; pw_kind := EQ;
                              pw_f_rule := f; pw_representation := SOS2 |}))) /\
  (CAPEX_model (Economics_of td) <> 1%Z ->
   CAPEX_model (Economics_of td) <> 2%Z ->
     getattr "const_CAPEX" b = None).
Proof.
  intros HL Hd run b.
  destruct (common_part G model td (fresh_block w)) as [r s0] eqn:Hrun.
  assert (Hb : getattr "const_CAPEX" b = getattr "const_CAPEX" (b_tec s0)).
  { unfold b, run.
    apply (init_technology_block_getattr L G nodename model data tec td w r s0);
      auto. cbn; tauto. }
  destruct (common_part_any G model td w r s0 Hrun) as (_ & _ & Hany & _).
  rewrite <- Hb in Hany.
  split; [|split].
  - intros E. split.
    + intros (p & Hp).
      destruct (Hany _ Hp) as [[_ H]|[E2 _]]; [discriminate H|congruence].
    + intros lo hi Hs Hu.
      assert (Ha : accepted td lo hi).
      { split; [exact Hs|]. split; [exact Hu|]. rewrite E. discriminate. }
      destruct (common_part_built G model td lo hi w Ha)
        as (s & Hrun' & _ & _ & Hc).
      rewrite Hrun in Hrun'. injection Hrun' as -> ->.
      destruct Hc as (_ & _ & _ & _ & _ & _ & _ & _ & _ & _ & _ & _ & _ & _ & Hc & _).
      rewrite E in Hc. cbn in Hc. rewrite <- Hb in Hc.
      eexists. split; [exact Hc|].
      intros rho. unfold holds; cbn. split; intros H; now symmetry.
  - intros E. split; [|split].
    + intros (e & He & _).
      destruct (Hany _ He) as [[E1 _]|(_ & pts & f & _ & _ & [H|H])];
        [congruence|discriminate|discriminate].
    + intros Hun.
      destruct (getattr "const_CAPEX" b) as [c|] eqn:Ec; [|reflexivity].
      destruct (Hany c eq_refl) as [[E1 _]|(_ & pts & f & Hx & Hy & _)];
        [congruence|].
      destruct Hun as [Hun|Hun]; congruence.
    + intros Hok. unfold b.
      destruct run as [r1 s1] eqn:Er. cbn in Hok. subst r1. cbn [snd].
      destruct (init_technology_block_Ok_inv L G nodename model data tec td
                  _ s1 Hd Er) as (s2 & Hc & Hk).
      rewrite Hrun in Hc. injection Hc as -> ->.
      destruct (common_part_Ok_inv G model td w s2 Hrun)
        as (_ & _ & _ & _ & Hcap & _).
      rewrite E in Hcap. cbn in Hcap. destruct Hcap as (pts & f & Hx & Hy & Hcap).
      exists pts, f. split; [exact Hx|]. split; [exact Hy|].
      assert (Hg := init_technology_block_getattr L G nodename model data tec td w
                      (Ok tt) s2 "const_CAPEX" HL Hd Hrun).
      fold run in Hg. rewrite Er in Hg. cbn [snd] in Hg.
      rewrite Hg by (cbn; tauto). exact Hcap.
  - intros N1 N2.
    destruct (getattr "const_CAPEX" b) as [c|] eqn:Ec; [|reflexivity].
    destruct (Hany c eq_refl) as [[E1 _]|[E2 _]]; contradiction.
Qed.

Lemma capex_constraint_by_model_witness :
  has_linear_capex boiler
    (b_tec (snd (init_technology_block stub_library module_as_shown "onshore"
                   hub_model hub_data "Boiler" (fresh_block world0)))) /\
  getattr "const_CAPEX"
    (b_tec (snd (init_technology_block stub_library breakpoints_bound "onshore"
                   hub_model hub_data "Kiln" (fresh_block world0))))
  = Some (CPiecewise {| pw_yvar := "var_CAPEX"; pw_xvar := "var_size";
                        pw_pts := [0; 5; 10]%Q; pw_kind := EQ;
                        pw_f_rule := [0; 400; 700]%Q;
                        pw_representation := SOS2 |}).
Proof.
  split.
  - destruct (capex_constraint_by_model stub_library module_as_shown "onshore"
                hub_model hub_data "Boiler" boiler world0
                stub_library_keeps_common eq_refl)
      as (H & _).
    apply (proj2 (H eq_refl) 2%Q 10%Q sizes_ok_boiler).
    now apply units_ok_continuous.
  - destruct (capex_constraint_by_model stub_library breakpoints_bound "onshore"
                hub_model hub_data "Kiln" (with_capex_model 2 boiler) world0
                stub_library_keeps_common eq_refl)
      as (_ & H & _).
    destruct (H eq_refl) as (_ & _ & H3).
    destruct H3 as (pts & f & Hx & Hy & Hc); [vm_compute; reflexivity|].
    vm_compute in Hx, Hy. injection Hx as <-. injection Hy as <-. exact Hc.
Defined.

(** C4 (as stated, refuted). Not every technology gets the variable-OPEX
    constraint. The technology "NegativeMax" of [faulty_data] has
    size_max = -1: the declaration of para_size_max over the non-negative
    reals raises ValueError, and the block the rule leaves has no
    constraint at all for any time step. The same holds of the engine of
    [faulty_data] (CONV1, integer size, size bounds 0 and 4), for which the
    rule raises InconsistentUnitsError while it declares the input
    variable. *)
Lemma rejected_technology_has_no_opex_constraint :
  In 1%Z (set_t hub_model) /\
  (exists msg s,
     init_technology_block stub_library module_as_shown "onshore" hub_model
       faulty_data "NegativeMax" (fresh_block world0)
       = (Raise (ValueError msg), s) /\
     getattr "const_OPEX_variable" (b_tec s) = None /\
     forall name rows, ~ In (name, CConstraint rows) (b_tec s)) /\
  (exists msg s,
     init_technology_block stub_library module_as_shown "onshore" hub_model
       faulty_data "Engine" (fresh_block world0)
       = (Raise (InconsistentUnitsError msg), s) /\
     getattr "const_OPEX_variable" (b_tec s) = None /\
     forall name rows, ~ In (name, CConstraint rows) (b_tec s)).
Proof.
  split; [now left|].
  split; eexists; eexists; (split; [vm_compute; reflexivity|]);
    (split; [vm_compute; reflexivity|]);
    intros name rows H; cbn in H;
    repeat (destruct H as [H|H]; [discriminate|]); destruct H.
Qed.

(** C4 (amended). For every technology for which the code before the
    archetype dispatch returns normally, and every time step t of the
    horizon, the submodel has the constraint
    OPEX_variable[t] = (sum of output[t, c] over the declared output
    carriers c, each counted once) * variable_OPEX_rate, with exactly one
    row per time step. That code returns normally whenever the size bounds
    resolve to non-negative numbers, the size is continuous or the
    archetype is RES, and the cost model is not the piecewise one. When it
    raises, the submodel has no such constraint. *)
Theorem variable_opex_constraint L G nodename model data tec td w :
  library_keeps_common L ->
  get_tec_data data nodename tec = Ok td ->
  (forall lo hi, accepted td lo hi ->
     exists s0, common_part G model td (fresh_block w) = (Ok tt, s0)) /\
  (forall s0, common_part G model td (fresh_block w) = (Ok tt, s0) ->
     exists rows,
       getattr "const_OPEX_variable"
         (b_tec (snd (init_technology_block L G nodename model data tec
                        (fresh_block w))))
         = Some (CConstraint rows) /\
       List.map fst rows = List.map IT (set_t model) /\
       forall t e, In (IT t, e) rows ->
         forall cars rho,
           each_once (output_carrier (TechnologyPerf_of td)) cars ->
           (holds rho e <->
            (rho "var_OPEX_variable" (IT t) ==
             total_output rho t cars * OPEX_variable (Economics_of td))%Q)) /\
  (forall e s0, common_part G model td (fresh_block w) = (Raise e, s0) ->
     getattr "const_OPEX_variable"
       (b_tec (snd (init_technology_block L G nodename model data tec
                      (fresh_block w))))
       = None).
Proof.
  intros HL Hd. split; [|split].
  - intros lo hi Ha.
    destruct (common_part_accepts G model td lo hi w Ha) as (s0 & H & _).
    now exists s0.
  - intros s0 Hrun.
    destruct (common_part_Ok_inv G model td w s0 Hrun)
      as (_ & _ & _ & _ & _ & _ & Hopex).
    rewrite (init_technology_block_getattr L G nodename model data tec td w
               (Ok tt) s0 "const_OPEX_variable" HL Hd Hrun) by (cbn; tauto).
    rewrite Hopex. unfold declared_const_OPEX_variable.
    eexists. split; [reflexivity|]. split.
    + rewrite List.map_map. reflexivity.
    + intros t e Hin cars rho Hcars.
      apply List.in_map_iff in Hin. destruct Hin as (t' & [= -> <-] & _).
      unfold holds. cbn [e_lhs e_rhs eval p_value].
      rewrite eval_py_sum_outputs.
      rewrite (total_output_each_once rho t _ cars Hcars).
      split; intros H; now symmetry.
  - intros e s0 Hrun.
    rewrite (init_technology_block_getattr L G nodename model data tec td w
               (Raise e) s0 "const_OPEX_variable" HL Hd Hrun) by (cbn; tauto).
    destruct (common_part_any G model td w _ s0 Hrun) as (_ & _ & _ & Hlast).
    destruct (getattr "const_OPEX_variable" (b_tec s0)) as [c|]; [|reflexivity].
    discriminate (Hlast c eq_refl).
Qed.

Lemma variable_opex_constraint_witness :
  exists rows,
    getattr "const_OPEX_variable"
      (b_tec (snd (init_technology_block stub_library module_as_shown "onshore"
                     hub_model faulty_data "CHP" (fresh_block world0))))
      = Some (CConstraint rows) /\
    List.map fst rows = [IT 1; IT 2] /\
    forall e rho, In (IT 2, e) rows ->
      (holds rho e <->
       (rho "var_OPEX_variable" (IT 2) ==
        (rho "var_output" (ITC 2 "electricity")
         + (rho "var_output" (ITC 2 "heat") + 0)) * 3)%Q).
Proof.
  destruct (variable_opex_constraint stub_library module_as_shown "onshore"
              hub_model faulty_data "CHP" chp world0
              stub_library_keeps_common eq_refl)
    as (_ & H & _).
  destruct (H (snd (common_part module_as_shown hub_model chp (fresh_block world0))))
    as (rows & H1 & H2 & H3); [vm_compute; reflexivity|].
  exists rows. split; [exact H1|]. split; [exact H2|].
  intros e rho Hin.
  apply (H3 2%Z e Hin ["electricity"; "heat"] rho).
  split.
  - repeat constructor; cbn; intuition discriminate.
  - intros c. cbn. intuition.
Defined.

(** C7. Whatever the technology and however the rule ends, an output
    variable on the block is indexed exactly by the pairs (time step,
    declared output carrier) and an input variable, built or not, exactly
    by the pairs (time step, declared input carrier): a carrier outside the
    declared set has no variable. An input variable exists only on a
    technology that is not RES; a RES technology has none. When the size
    bounds resolve to non-negative numbers and the size is continuous or
    the archetype is RES, the output variable exists, and so does the input
    variable of a technology that is not RES. *)
Theorem variables_only_for_declared_carriers L G nodename model data tec td w :
  library_keeps_common L ->
  get_tec_data data nodename tec = Ok td ->
  let b := b_tec (snd (init_technology_block L G nodename model data tec
                         (fresh_block w))) in
  (forall c, getattr "var_output" b = Some c ->
     exists v, c = CVar v /\
       (forall i, In i (v_index v) -> exists t car, i = ITC t car) /\
       forall t car, In (ITC t car) (v_index v) <->
         In t (set_t model) /\ In car (output_carrier (TechnologyPerf_of td))) /\
  (forall c, getattr "var_input" b = Some c ->
     tec_type (TechnologyPerf_of td) <> "RES" /\
     exists v, (c = CVar v \/ c = CFailed (CVar v)) /\
       (forall i, In i (v_index v) -> exists t car, i = ITC t car) /\
       forall t car, In (ITC t car) (v_index v) <->
         In t (set_t model) /\ In car (input_carrier (TechnologyPerf_of td))) /\
  (tec_type (TechnologyPerf_of td) = "RES" -> getattr "var_input" b = None) /\
  (forall lo hi, sizes_ok td lo hi -> units_ok td ->
     (exists v, getattr "var_output" b = Some (CVar v)) /\
     (tec_type (TechnologyPerf_of td) <> "RES" ->
      exists v, getattr "var_input" b = Some (CVar v))).
Proof.
  intros HL Hd b.
  destruct (common_part G model td (fresh_block w)) as [r s0] eqn:Hrun.
  assert (Hb : forall n, In n common_names -> getattr n b = getattr n (b_tec s0)).
  { intros n Hn. unfold b.
    now apply (init_technology_block_getattr L G nodename model data tec td w r s0). }
  clearbody b.
  destruct (common_part_any G model td w r s0 Hrun) as (Hout & Hin & _).
  rewrite <- !Hb in Hout, Hin by (cbn; tauto).
  assert (Hshape : forall cars raw (v : Var),
            cars = Set_initialize raw ->
            v_index v = product_index (set_t model) cars ->
            (forall i, In i (v_index v) -> exists t car, i = ITC t car) /\
            forall t car, In (ITC t car) (v_index v) <->
              In t (set_t model) /\ In car raw).
  { intros cars raw v -> Hv. rewrite Hv. split.
    - intros i Hi. apply product_index_shape in Hi.
      destruct Hi as (t & c & -> & _). eauto.
    - intros t c. rewrite product_index_In, Set_initialize_In. tauto. }
  split; [|split; [|split]].
  - intros c Hc. destruct (Hout c Hc) as (v & -> & Hv).
    exists v. split; [reflexivity|]. now apply (Hshape _ _ v eq_refl).
  - intros c Hc. destruct (Hin c Hc) as (Hres & v & Hcv & Hv).
    split; [exact Hres|]. exists v. split; [exact Hcv|].
    now apply (Hshape _ _ v eq_refl).
  - intros Hres. destruct (getattr "var_input" b) as [c|] eqn:Ec; [|reflexivity].
    destruct (Hin c eq_refl) as [Hn _]. contradiction.
  - intros lo hi Hs Hu.
    destruct (common_part_declared G model td lo hi w r s0 Hs Hrun) as (_ & Hv).
    destruct (Hv Hu) as (V1 & V2 & _).
    rewrite !Hb by (cbn; tauto). split.
    + eexists. exact V2.
    + intros Hres. apply String.eqb_neq in Hres. rewrite Hres in V1.
      eexists. exact V1.
Qed.

Lemma variables_only_for_declared_carriers_witness :
  getattr "var_input"
    (b_tec (snd (init_technology_block stub_library module_as_shown "onshore"
                   hub_model hub_data "PV" (fresh_block world0)))) = None /\
  exists v,
    getattr "var_output"
      (b_tec (snd (init_technology_block stub_library module_as_shown "onshore"
                     hub_model hub_data "PV" (fresh_block world0)))) = Some (CVar v) /\
    (In (ITC 1 "electricity") (v_index v) /\ ~ In (ITC 1 "heat") (v_index v)).
Proof.
  destruct (variables_only_for_declared_carriers stub_library module_as_shown
              "onshore" hub_model hub_data "PV" pv world0
              stub_library_keeps_common eq_refl)
    as (Hout & _ & Hres & Hex).
  split; [apply Hres; reflexivity|].
  destruct (Hex 0%Q 8%Q sizes_ok_pv (units_ok_RES pv eq_refl)) as [[v Hv] _].
  exists v. split; [exact Hv|].
  destruct (Hout _ Hv) as (v' & [= <-] & _ & Hidx).
  split.
  - apply Hidx. cbn. auto.
  - intros H. apply Hidx in H. cbn in H. destruct H as [_ [H|[]]]. discriminate.
Defined.

(** ** Facts about the construction of the technology sets *)

Lemma existsb_eqb_In (x : string) (l : list string) :
  In x l -> existsb (String.eqb x) l = true.
Proof.
  intros H. apply List.existsb_exists. exists x. split; [exact H|].
  apply String.eqb_refl.
Qed.



(** ** Facts about the transformation flag *)

Lemma same_flag_refl w : same_flag w w.
Proof. reflexivity. Qed.

Lemma same_flag_trans w1 w2 w3 :
  same_flag w1 w2 -> same_flag w2 w3 -> same_flag w1 w3.
Proof. unfold same_flag. congruence. Qed.

Lemma flag_stays_set_refl w : flag_stays_set w w.
Proof. intros H. exact H. Qed.

Lemma flag_stays_set_trans w1 w2 w3 :
  flag_stays_set w1 w2 -> flag_stays_set w2 w3 -> flag_stays_set w1 w3.
Proof. unfold flag_stays_set. auto. Qed.


Lemma respects_set_big_m_stays : respects flag_stays_set (set_big_m 1).
Proof. intros s _. reflexivity. Qed.

Lemma library_flag_stays L :
  library_keeps_flag L ->
  forall m d, respects flag_stays_set (constraints_tec_RES L m d) /\
              respects flag_stays_set (constraints_tec_CONV1 L m d) /\
              respects flag_stays_set (constraints_tec_CONV2 L m d) /\
              respects flag_stays_set (constraints_tec_CONV3 L m d) /\
              respects flag_stays_set (constraints_tec_STOR L m d).
Proof.
  intros HL m d. destruct (HL m d) as (H1 & H2 & H3 & H4 & H5).
  repeat split; intros s Hs;
    [rewrite H1|rewrite H2|rewrite H3|rewrite H4|rewrite H5]; exact Hs.
Qed.

(** A rule invocation for a piecewise technology that reaches the
    cost-model branch leaves the flag at 1, however the invocation ends. *)
Lemma rule_sets_flag L G nodename model data tec td lo hi w :
  library_keeps_flag L ->
  get_tec_data data nodename tec = Ok td ->
  CAPEX_model (Economics_of td) = 2%Z ->
  sizes_ok td lo hi -> units_ok td ->
  big_m_transformation_required
    (world (snd (init_technology_block L G nodename model data tec
                   (fresh_block w)))) = 1%Z.
Proof.
  intros HL Hd Hc Hs Hu.
  rewrite (init_technology_block_run _ _ _ _ _ _ _ _ Hd).
  destruct (common_part G model td (fresh_block w)) as [r s0] eqn:Hrun.
  destruct (common_part_declared G model td lo hi w r s0 Hs Hrun) as (_ & Hv).
  destruct (Hv Hu) as (_ & _ & _ & _ & _ & _ & Hw).
  rewrite Hc in Hw. cbn in Hw.
  destruct r as [[]|e].
  - rewrite (bind_Ok _ _ _ _ _ Hrun).
    assert (Hk : respects same_flag (region_technology_types L model td)).
    { apply respects_region_technology_types;
        [exact same_flag_refl|exact (fun m d => HL m d)]. }
    rewrite (Hk s0). now rewrite Hw.
  - rewrite (bind_Raise _ _ _ _ _ Hrun). cbn. now rewrite Hw.
Qed.




(** C6 (as stated, refuted). A technology with capex_model = 2 in the hub
    does not always set the flag: the technology "NegativeKiln" of
    [faulty_data] has capex_model = 2 and size_max = -1; the construction
    of the node's technologies builds the boiler, raises ValueError when it
    declares para_size_max of the kiln, before the cost-model branch, and
    ends with the flag at 0 as it found it. *)
Lemma piecewise_technology_can_leave_the_flag_unset :
  CAPEX_model (Economics_of (with_capex_model 2 negative_max)) = 2%Z /\
  get_tec_data faulty_data "onshore" "NegativeKiln"
    = Ok (with_capex_model 2 negative_max) /\
  exists msg,
    add_technologies stub_library module_as_shown "onshore"
      ["Boiler"; "NegativeKiln"] hub_model faulty_data world0
    = (Raise (ValueError msg), world0) /\
    big_m_transformation_required world0 = 0%Z.
Proof.
  split; [reflexivity|]. split; [vm_compute; reflexivity|].
  eexists. split; [vm_compute; reflexivity|reflexivity].
Qed.

(** C6 (amended). The flag follows the cost models of the technologies of
    a node. Whenever the technology list reaches the cost-model branch of
    a technology with capex_model = 2 (every technology before it was
    built, its size bounds resolve to non-negative numbers and its size is
    continuous or its archetype is RES), the flag is 1 when
    [add_technologies] ends, however it ends. When every technology has
    capex_model = 1, the construction leaves the flag as it found it, so
    it is not set by the construction. The archetype functions are assumed
    not to write the flag. *)
Theorem big_m_flag_follows_cost_model L G nodename model data w :
  library_keeps_flag L ->
  (forall pre tec post td lo hi blocks w1,
     add_technologies L G nodename pre model data w = (Ok blocks, w1) ->
     get_tec_data data nodename tec = Ok td ->
     CAPEX_model (Economics_of td) = 2%Z ->
     sizes_ok td lo hi -> units_ok td ->
     big_m_transformation_required
       (snd (add_technologies L G nodename (pre ++ tec :: post) model data w))
     = 1%Z) /\
  (forall tecs,
     (forall tec td, In tec tecs ->
        get_tec_data data nodename tec = Ok td ->
        CAPEX_model (Economics_of td) = 1%Z) ->
     big_m_transformation_required
       (snd (add_technologies L G nodename tecs model data w))
     = big_m_transformation_required w).
Proof.
  intros HL. split.
  - intros pre tec post td lo hi blocks w1 Hpre Hd Hc Hs Hu.
    unfold add_technologies, Block_indexed in *.
    rewrite (for_each_app _ pre (tec :: post) w blocks w1 Hpre).
    pose proof (rule_sets_flag L G nodename model data tec td lo hi w1
                  HL Hd Hc Hs Hu) as Hflag.
    cbn [for_each]. unfold bind at 1.
    destruct (init_technology_block L G nodename model data tec (fresh_block w1))
      as [[u|e] s1]; cbn [snd] in *; [|exact Hflag].
    assert (Hrule : forall i, In i post ->
              respects flag_stays_set
                (init_technology_block L G nodename model data i)).
    { intros i _. apply respects_init_technology_block.
      - exact flag_stays_set_refl.
      - exact flag_stays_set_trans.
      - intros; exact respects_set_big_m_stays.
      - now apply library_flag_stays. }
    pose proof (respects_Block_indexed flag_stays_set flag_stays_set_refl
                  flag_stays_set_trans post
                  (init_technology_block L G nodename model data) (world s1)
                  Hrule Hflag) as Hpost.
    unfold Block_indexed in Hpost. unfold bind at 1.
    destruct (for_each _ post (world s1)) as [[ys|e] w2]; exact Hpost.
  - intros tecs Hlin.
    apply (respects_Block_indexed same_flag same_flag_refl same_flag_trans).
    intros tec Hin. apply respects_init_technology_block.
    + exact same_flag_refl.
    + exact same_flag_trans.
    + intros td Hd E. rewrite (Hlin tec td Hin Hd) in E. discriminate.
    + exact (fun m d => HL m d).
Qed.

Lemma big_m_flag_follows_cost_model_witness :
  big_m_transformation_required
    (snd (add_technologies stub_library module_as_shown "onshore"
            (["Boiler"; "PV"] ++ "Kiln" :: ["Furnace"]) hub_model hub_data world0))
  = 1%Z /\
  big_m_transformation_required
    (snd (add_technologies stub_library module_as_shown "onshore"
            ["Boiler"; "PV"] hub_model hub_data world0))
  = 0%Z.
Proof.
  destruct (big_m_flag_follows_cost_model stub_library module_as_shown
              "onshore" hub_model hub_data world0 stub_library_keeps_flag)
    as [Hset Hnot].
  split.
  - eapply (Hset ["Boiler"; "PV"] "Kiln" ["Furnace"]
                 (with_capex_model 2 boiler) 2%Q 10%Q).
    + vm_compute. reflexivity.
    + reflexivity.
    + reflexivity.
    + repeat split; try reflexivity; vm_compute; discriminate.
    + now apply units_ok_continuous.
  - apply (Hnot ["Boiler"; "PV"]).
    intros tec td [<-|[<-|[]]] Hd; vm_compute in Hd; inversion Hd; reflexivity.
Defined.




(** C9 (as stated, refuted). A technology with inconsistent bounds is built
    without any error: the technology "Crossed" of [hub_data] has
    size_min = 5 > size_max = 1 and the input carrier "hydrogen", which is
    not in the global carrier set, and the rule returns normally and leaves
    the world as it was. *)
Lemma crossed_bounds_are_built :
  resolve_size_min (size_min (TechnologyPerf_of crossed)) = Ok 5%Q /\
  resolve_size_max (size_max (TechnologyPerf_of crossed)) = Ok 1%Q /\
  (1 < 5)%Q /\
  In "hydrogen" (input_carrier (TechnologyPerf_of crossed)) /\
  ~ In "hydrogen" (set_carriers hub_model) /\
  exists s,
    init_technology_block stub_library module_as_shown "onshore" hub_model
      hub_data "Crossed" (fresh_block world0) = (Ok tt, s) /\
    world s = world0.
Proof.
  split; [reflexivity|]. split; [reflexivity|]. split; [reflexivity|].
  split; [cbn; auto|]. split.
  - cbn. intros [H|[H|[H|[]]]]; discriminate.
  - eexists. split; [vm_compute; reflexivity|reflexivity].
Qed.

(** C9 (amended). The rule validates neither the order of the size bounds
    nor the carriers of a technology. For every technology whose size
    bounds resolve to non-negative numbers, whose size is continuous or
    whose archetype is RES, and whose cost model is not the piecewise one,
    whether or not size_min <= size_max and whatever its carriers, the rule
    reaches the archetype dispatch with no error and the world as it was
    (nothing printed, flag untouched), the size variable carries the bounds
    (size_min, size_max) as resolved, and the global carrier set is never
    consulted: the code before the dispatch is the same for every carrier
    set. *)
Theorem no_consistency_validation L G nodename model data tec td lo hi w :
  get_tec_data data nodename tec = Ok td ->
  accepted td lo hi ->
  (exists s0 v,
     common_part G model td (fresh_block w) = (Ok tt, s0) /\
     init_technology_block L G nodename model data tec (fresh_block w)
       = region_technology_types L model td s0 /\
     world s0 = w /\
     getattr "var_size" (b_tec s0) = Some (CVar v) /\
     v_bound_values v = Some (lo, hi)) /\
  (forall cars,
     common_part G (with_carriers cars model) td = common_part G model td).
Proof.
  intros Hd Ha. split.
  - destruct (common_part_built G model td lo hi w Ha)
      as (s0 & Hrun & Hw & _ & Hc).
    destruct Hc as (_ & _ & _ & _ & _ & _ & _ & _ & _ & _ & Hsize & _).
    eexists. eexists. split; [exact Hrun|]. split.
    + rewrite (init_technology_block_run _ _ _ _ _ _ _ _ Hd).
      now rewrite (bind_Ok _ _ _ _ _ Hrun).
    + split; [exact Hw|]. split; [exact Hsize|reflexivity].
  - intros cars. reflexivity.
Qed.

Lemma no_consistency_validation_witness :
  exists s0 v,
    common_part module_as_shown hub_model crossed (fresh_block world0)
      = (Ok tt, s0) /\
    getattr "var_size" (b_tec s0) = Some (CVar v) /\
    v_bound_values v = Some (5, 1)%Q.
Proof.
  destruct (no_consistency_validation stub_library module_as_shown "onshore"
              hub_model hub_data "Crossed" crossed 5%Q 1%Q world0 eq_refl
              accepted_crossed)
    as [(s0 & v & H1 & _ & _ & H2 & H3) _].
  exists s0, v. auto.
Defined.

(** C10 (as stated, refuted). Not every technology with capex_model = 2
    raises NameError. The technology "NegativeKiln" of [faulty_data]
    (capex_model = 2, size_max = -1) raises ValueError when para_size_max
    is declared, before the cost-model branch, and the world it leaves is
    the one it started from, with the flag at 0. The same holds of
    "IntegerKiln" (capex_model = 2, CONV1, integer size), which raises
    InconsistentUnitsError while the input variable is declared. *)
Lemma piecewise_technology_can_fail_before_the_branch :
  (get_tec_data faulty_data "onshore" "NegativeKiln"
     = Ok (with_capex_model 2 negative_max) /\
   CAPEX_model (Economics_of (with_capex_model 2 negative_max)) = 2%Z /\
   exists msg s,
     init_technology_block stub_library module_as_shown "onshore" hub_model
       faulty_data "NegativeKiln" (fresh_block world0)
       = (Raise (ValueError msg), s) /\
     world s = world0 /\
     big_m_transformation_required (world s) = 0%Z) /\
  (get_tec_data faulty_data "onshore" "IntegerKiln"
     = Ok (with_capex_model 2 engine) /\
   CAPEX_model (Economics_of (with_capex_model 2 engine)) = 2%Z /\
   exists msg s,
     init_technology_block stub_library module_as_shown "onshore" hub_model
       faulty_data "IntegerKiln" (fresh_block world0)
       = (Raise (InconsistentUnitsError msg), s) /\
     world s = world0 /\
     big_m_transformation_required (world s) = 0%Z).
Proof.
  split; (split; [vm_compute; reflexivity|]); (split; [reflexivity|]);
    eexists; eexists; (split; [vm_compute; reflexivity|]); split; reflexivity.
Qed.

(** C10 (amended). For every technology with capex_model = 2 that reaches
    the cost-model branch (its size bounds resolve to non-negative numbers
    and its size is continuous or its archetype is RES), when a breakpoint
    name is not bound in the module (neither is, in the source shown), the
    rule raises NameError for the first unbound name and the exception
    leaves [add_technologies] unhandled, whatever technologies follow. The
    flag has been written before: the world the exception leaves behind
    has the flag at 1, whatever it was, and the block has no CAPEX
    constraint. *)
Theorem piecewise_model_raises_NameError
    L G nodename model data tec post td lo hi w :
  get_tec_data data nodename tec = Ok td ->
  CAPEX_model (Economics_of td) = 2%Z ->
  sizes_ok td lo hi -> units_ok td ->
  bp_x G = None \/ bp_y G = None ->
  let name := if bp_x G is Some _ then "bp_y" else "bp_x" in
  let w' := {| big_m_transformation_required := 1; printed := printed w |} in
  (exists s,
     init_technology_block L G nodename model data tec (fresh_block w)
       = (Raise (NameError name), s) /\
     world s = w' /\
     getattr "const_CAPEX" (b_tec s) = None) /\
  add_technologies L G nodename (tec :: post) model data w
    = (Raise (NameError name), w').
Proof.
  intros Hd Hc Hs Hu Hun name w'.
  destruct (common_part_unbound G model td lo hi w Hs Hu Hc Hun)
    as (s & Hrun & Hw & Hcap & _).
  assert (Hinit : init_technology_block L G nodename model data tec (fresh_block w)
                  = (Raise (NameError name), s)).
  { rewrite (init_technology_block_run _ _ _ _ _ _ _ _ Hd).
    now rewrite (bind_Raise _ _ _ _ _ Hrun). }
  split.
  - exists s. auto.
  - unfold add_technologies, Block_indexed. cbn [for_each].
    unfold bind at 1. rewrite Hinit, Hw. reflexivity.
Qed.

Lemma piecewise_model_raises_NameError_witness :
  add_technologies stub_library module_as_shown "onshore" ["Kiln"; "Boiler"]
    hub_model hub_data world0
  = (Raise (NameError "bp_x"),
     {| big_m_transformation_required := 1; printed := [] |}) /\
  add_technologies stub_library bp_y_unbound "onshore" ["Kiln"] hub_model
    hub_data world0
  = (Raise (NameError "bp_y"),
     {| big_m_transformation_required := 1; printed := [] |}).
Proof.
  split.
  - apply (piecewise_model_raises_NameError stub_library module_as_shown
             "onshore" hub_model hub_data "Kiln" ["Boiler"]
             (with_capex_model 2 boiler)
             2%Q 10%Q world0 eq_refl eq_refl).
    + repeat split; try reflexivity; vm_compute; discriminate.
    + now apply units_ok_continuous.
    + left. reflexivity.
  - apply (piecewise_model_raises_NameError stub_library bp_y_unbound
             "onshore" hub_model hub_data "Kiln" [] (with_capex_model 2 boiler)
             2%Q 10%Q world0 eq_refl eq_refl).
    + repeat split; try reflexivity; vm_compute; discriminate.
    + now apply units_ok_continuous.
    + right. reflexivity.
Defined.

(** ** More of the technology rule *)

Lemma getattr_In name (b : Block) c : getattr name b = Some c -> In (name, c) b.
Proof.
  induction b as [|[n c'] r IH]; cbn; [discriminate|].
  destruct (String.eqb n name) eqn:E.
  - intros H. inversion H; subst. apply String.eqb_eq in E. subst. now left.
  - intros H. right. now apply IH.
Qed.

(** X1. For every technology whose size bounds resolve to non-negative
    numbers, whose size is continuous or whose archetype is RES, and whose
    cost model is not the piecewise one, the submodel has the fixed OPEX
    constraint as one scalar equality, which holds exactly when
    OPEX_fixed = CAPEX * fixed OPEX fraction (line 144). *)
Theorem fixed_opex_constraint L G nodename model data tec td lo hi w :
  library_keeps_common L ->
  get_tec_data data nodename tec = Ok td ->
  accepted td lo hi ->
  exists e,
    getattr "const_OPEX_fixed"
      (b_tec (snd (init_technology_block L G nodename model data tec
                     (fresh_block w))))
      = Some (CConstraint [(IScalar, e)]) /\
    forall rho, holds rho e <->
      (rho "var_OPEX_fixed" IScalar ==
       rho "var_CAPEX" IScalar * OPEX_fixed (Economics_of td))%Q.
Proof.
  intros HL Hd Ha.
  destruct (common_part_built G model td lo hi w Ha) as (s0 & Hrun & _ & _ & Hc).
  rewrite (init_technology_block_getattr L G nodename model data tec td w
             (Ok tt) s0 "const_OPEX_fixed" HL Hd Hrun) by (cbn; tauto).
  eexists. split; [apply Hc|].
  intros rho. unfold holds; cbn. split; intros H; now symmetry.
Qed.

Lemma fixed_opex_constraint_witness :
  exists e,
    getattr "const_OPEX_fixed"
      (b_tec (snd (init_technology_block stub_library module_as_shown "onshore"
                     hub_model hub_data "Boiler" (fresh_block world0))))
      = Some (CConstraint [(IScalar, e)]) /\
    forall rho, holds rho e <->
      (rho "var_OPEX_fixed" IScalar == rho "var_CAPEX" IScalar * (1 # 20))%Q.
Proof.
  exact (fixed_opex_constraint stub_library module_as_shown "onshore"
           hub_model hub_data "Boiler" boiler 2%Q 10%Q world0
           stub_library_keeps_common eq_refl accepted_boiler).
Defined.

(** X2. For every technology whose size bounds resolve to non-negative
    numbers and whose size is continuous or whose archetype is RES, the
    size variable is a scalar variable with bounds (size_min, size_max) as
    resolved, however the rest of the rule ends. For an integer-sized
    technology (then RES) it ranges over the non-negative integers and has
    no unit, so every admissible size is a whole number; otherwise it
    ranges over the non-negative reals in MW (lines 119-124). *)
Theorem size_variable_domain_and_bounds
    L G nodename model data tec td lo hi w :
  library_keeps_common L ->
  get_tec_data data nodename tec = Ok td ->
  sizes_ok td lo hi -> units_ok td ->
  exists v,
    getattr "var_size"
      (b_tec (snd (init_technology_block L G nodename model data tec
                     (fresh_block w))))
      = Some (CVar v) /\
    v_index v = [IScalar] /\ v_bound_values v = Some (lo, hi) /\
    (forall x, admissible v x -> (0 <= x)%Q /\ (lo <= x)%Q /\ (x <= hi)%Q) /\
    (size_is_int (TechnologyPerf_of td) = true ->
       v_within v = NonNegativeIntegers /\ v_units v = None /\
       forall x, admissible v x ->
         exists n : Z, (0 <= n)%Z /\ (x == inject_Z n)%Q) /\
    (size_is_int (TechnologyPerf_of td) = false ->
       v_within v = NonNegativeReals /\ v_units v = Some MW).
Proof.
  intros HL Hd Hs Hu.
  destruct (common_part G model td (fresh_block w)) as [r s0] eqn:Hrun.
  destruct (common_part_declared G model td lo hi w r s0 Hs Hrun) as (_ & Hv).
  destruct (Hv Hu) as (_ & _ & Hsize & _).
  rewrite (init_technology_block_getattr L G nodename model data tec td w r s0
             "var_size" HL Hd Hrun) by (cbn; tauto).
  rewrite Hsize. eexists. split; [reflexivity|].
  split; [reflexivity|]. split; [reflexivity|].
  assert (Hint : forall x, in_domain NonNegativeIntegers x = true ->
                   (0 <= x)%Q /\ exists n : Z, (0 <= n)%Z /\ (x == inject_Z n)%Q).
  { intros x Hx. unfold in_domain in Hx. apply andb_true_iff in Hx.
    destruct Hx as [H0 Hfl]. apply Qle_bool_iff in H0. apply Qeq_bool_iff in Hfl.
    split; [exact H0|]. exists (Qfloor x). split; [|exact Hfl].
    rewrite Hfl in H0. change 0%Q with (inject_Z 0) in H0.
    rewrite Zle_Qle. exact H0. }
  unfold declared_var_size. split; [|split].
  - intros x [Hdom [H1 H2]]. cbn in *. split; [|auto].
    destruct (size_is_int (TechnologyPerf_of td)).
    + now apply Hint.
    + now apply Qle_bool_iff.
  - intros Ei. rewrite Ei. split; [reflexivity|]. split; [reflexivity|].
    intros x [Hdom _]. cbn [v_within] in Hdom. now apply Hint.
  - intros Ei. rewrite Ei. split; reflexivity.
Qed.

Lemma size_variable_domain_and_bounds_witness :
  exists v,
    getattr "var_size"
      (b_tec (snd (init_technology_block stub_library module_as_shown "onshore"
                     hub_model hub_data "PV" (fresh_block world0))))
      = Some (CVar v) /\
    v_within v = NonNegativeIntegers /\ v_bound_values v = Some (0, 8)%Q.
Proof.
  destruct (size_variable_domain_and_bounds stub_library module_as_shown
              "onshore" hub_model hub_data "PV" pv 0%Q 8%Q world0
              stub_library_keeps_common eq_refl sizes_ok_pv
              (units_ok_RES pv eq_refl))
    as (v & H1 & _ & H2 & _ & H3 & _).
  exists v. split; [exact H1|]. split; [apply H3; reflexivity|exact H2].
Defined.

(** X3. For every technology whose size bounds resolve to non-negative
    numbers and whose size is continuous or whose archetype is RES, the
    output variable ranges over the non-negative reals with bounds
    (0, para_output_max), and para_output_max holds the resolved size_max
    in MW: a value is admissible exactly when it lies between 0 and
    size_max, so an output of 0 is always allowed (lines 96, 117-118). *)
Theorem output_variable_bounds L G nodename model data tec td lo hi w :
  library_keeps_common L ->
  get_tec_data data nodename tec = Ok td ->
  sizes_ok td lo hi -> units_ok td ->
  let b := b_tec (snd (init_technology_block L G nodename model data tec
                         (fresh_block w))) in
  exists v p,
    getattr "var_output" b = Some (CVar v) /\
    getattr "para_output_max" b = Some (CParam p) /\
    p_value p = hi /\ p_units p = MW /\
    v_within v = NonNegativeReals /\
    v_bounds v = Some (BNumber 0, BParam p) /\
    (forall x, admissible v x <-> (0 <= x)%Q /\ (x <= hi)%Q) /\
    admissible v 0.
Proof.
  intros HL Hd Hs Hu b.
  destruct (common_part G model td (fresh_block w)) as [r s0] eqn:Hrun.
  destruct (common_part_declared G model td lo hi w r s0 Hs Hrun) as (Hp & Hv).
  destruct (Hv Hu) as (_ & Hout & _).
  destruct Hp as (_ & _ & Hpom & _).
  assert (Hb : forall n, In n common_names -> getattr n b = getattr n (b_tec s0)).
  { intros n Hn. unfold b.
    now apply (init_technology_block_getattr L G nodename model data tec td w r s0). }
  clearbody b. rewrite !Hb by (cbn; tauto). rewrite Hout, Hpom.
  eexists. eexists. split; [reflexivity|]. split; [reflexivity|].
  split; [reflexivity|]. split; [reflexivity|]. split; [reflexivity|].
  split; [reflexivity|].
  assert (Hadm : forall x,
            admissible (declared_var_output model td hi) x
            <-> (0 <= x)%Q /\ (x <= hi)%Q).
  { intros x. unfold admissible; cbn. rewrite Qle_bool_iff. tauto. }
  split; [exact Hadm|]. apply Hadm. split; [apply Qle_refl|].
  now destruct Hs as (_ & _ & _ & H).
Qed.

Lemma output_variable_bounds_witness :
  exists v,
    getattr "var_output"
      (b_tec (snd (init_technology_block stub_library module_as_shown "onshore"
                     hub_model hub_data "Boiler" (fresh_block world0))))
      = Some (CVar v) /\
    v_bound_values v = Some (0, 10)%Q /\ admissible v 0.
Proof.
  destruct (output_variable_bounds stub_library module_as_shown
              "onshore" hub_model hub_data "Boiler" boiler 2%Q 10%Q world0
              stub_library_keeps_common eq_refl sizes_ok_boiler
              (units_ok_continuous boiler eq_refl))
    as (v & p & H1 & _ & H2 & _ & _ & H3 & _ & H4).
  exists v. split; [exact H1|]. split; [|exact H4].
  unfold v_bound_values. rewrite H3. cbn. now rewrite H2.
Defined.

(** X4. The six parameters of every technology the rule builds hold the
    resolved data: para_size_min and para_size_max the resolved bounds,
    para_output_max the resolved size_max again, and the three cost
    parameters the economic data. The size parameters are dimensionless for
    an integer-sized technology and in MW otherwise, and the unit CAPEX is
    in EUR per that unit (lines 90-102). *)
Theorem parameters_hold_resolved_data L G nodename model data tec td lo hi w :
  library_keeps_common L ->
  get_tec_data data nodename tec = Ok td ->
  sizes_ok td lo hi -> capex_ok G td ->
  let b := b_tec (snd (init_technology_block L G nodename model data tec
                         (fresh_block w))) in
  let param d v u := Some (CParam {| p_domain := d; p_value := v; p_units := u |}) in
  getattr "para_size_min" b = param NonNegativeReals lo (unit_size_of td) /\
  getattr "para_size_max" b = param NonNegativeReals hi (unit_size_of td) /\
  getattr "para_output_max" b = param NonNegativeReals hi MW /\
  getattr "para_unit_CAPEX" b =
    param Reals (unit_CAPEX_annual (Economics_of td))
          (unit_div EUR (unit_size_of td)) /\
  getattr "para_OPEX_variable" b =
    param Reals (OPEX_variable (Economics_of td)) (unit_div EUR MWh) /\
  getattr "para_OPEX_fixed" b =
    param Reals (OPEX_fixed (Economics_of td)) (unit_div EUR EUR).
Proof.
  intros HL Hd Hs Hc b param.
  destruct (common_part G model td (fresh_block w)) as [r s0] eqn:Hrun.
  destruct (common_part_declared G model td lo hi w r s0 Hs Hrun)
    as ((H1 & H2 & H3 & H4 & H5 & H6 & _) & _).
  assert (Hb : forall n, In n common_names -> getattr n b = getattr n (b_tec s0)).
  { intros n Hn. unfold b.
    now apply (init_technology_block_getattr L G nodename model data tec td w r s0). }
  clearbody b. rewrite !Hb by (cbn; tauto). unfold param. auto 10.
Qed.

Lemma parameters_hold_resolved_data_witness :
  getattr "para_size_max"
    (b_tec (snd (init_technology_block stub_library module_as_shown "onshore"
                   hub_model hub_data "PV" (fresh_block world0))))
  = Some (CParam {| p_domain := NonNegativeReals; p_value := 8%Q;
                    p_units := dimensionless |}).
Proof.
  apply (parameters_hold_resolved_data stub_library module_as_shown "onshore"
           hub_model hub_data "PV" pv 0%Q 8%Q world0
           stub_library_keeps_common eq_refl sizes_ok_pv).
  apply capex_ok_linear. vm_compute. discriminate.
Defined.

(** X5. For a technology with the linear cost model whose size bounds
    resolve to non-negative numbers and whose size is continuous or whose
    archetype is RES, every candidate solution that satisfies the
    constraints of the built submodel has CAPEX = size * unit_CAPEX,
    OPEX_fixed = size * unit_CAPEX * fixed OPEX fraction, and at every time
    step of the horizon
    OPEX_variable[t] = (sum of the outputs at t) * variable OPEX rate
    (lines 133-150). *)
Theorem linear_cost_chain L G nodename model data tec td lo hi w rho :
  library_keeps_common L ->
  get_tec_data data nodename tec = Ok td ->
  sizes_ok td lo hi -> units_ok td ->
  CAPEX_model (Economics_of td) = 1%Z ->
  satisfies rho
    (b_tec (snd (init_technology_block L G nodename model data tec
                   (fresh_block w)))) ->
  (rho "var_CAPEX" IScalar ==
   rho "var_size" IScalar * unit_CAPEX_annual (Economics_of td))%Q /\
  (rho "var_OPEX_fixed" IScalar ==
   rho "var_size" IScalar * unit_CAPEX_annual (Economics_of td)
   * OPEX_fixed (Economics_of td))%Q /\
  forall t, In t (set_t model) ->
    (rho "var_OPEX_variable" (IT t) ==
     total_output rho t (Set_initialize (output_carrier (TechnologyPerf_of td)))
     * OPEX_variable (Economics_of td))%Q.
Proof.
  intros HL Hd Hs Hu E Hsat.
  assert (Ha : accepted td lo hi).
  { split; [exact Hs|]. split; [exact Hu|]. rewrite E. discriminate. }
  destruct (common_part_built G model td lo hi w Ha) as (s0 & Hrun & _ & _ & Hc).
  destruct Hc as (_ & _ & _ & _ & _ & _ & _ & _ & _ & _ & _ & _ & _ & _
                  & Hcap & Hfix & Hopex).
  set (b := b_tec (snd (init_technology_block L G nodename model data tec
                          (fresh_block w)))) in *.
  assert (Hb : forall n, In n common_names -> getattr n b = getattr n (b_tec s0)).
  { intros n Hn. unfold b.
    now apply (init_technology_block_getattr L G nodename model data tec td w
                 (Ok tt) s0). }
  clearbody b.
  rewrite <- Hb in Hcap, Hopex, Hfix by (cbn; tauto).
  rewrite E in Hcap. cbn in Hcap.
  apply getattr_In in Hcap, Hopex, Hfix.
  assert (H1 : (rho "var_CAPEX" IScalar ==
                rho "var_size" IScalar * unit_CAPEX_annual (Economics_of td))%Q).
  { symmetry. exact (Hsat _ _ _ _ Hcap (or_introl eq_refl)). }
  split; [exact H1|]. split.
  - rewrite <- H1. symmetry. exact (Hsat _ _ _ _ Hfix (or_introl eq_refl)).
  - intros t Ht.
    assert (Hrow := Hsat _ _ (IT t) _ Hopex
                      (proj2 (List.in_map_iff _ _ _) (ex_intro _ t (conj eq_refl Ht)))).
    unfold holds in Hrow. cbn [e_lhs e_rhs eval p_value] in Hrow.
    rewrite eval_py_sum_outputs in Hrow. now symmetry.
Qed.

Lemma linear_cost_chain_witness :
  (boiler_solution "var_OPEX_fixed" IScalar ==
   boiler_solution "var_size" IScalar * 100 * (1 # 20))%Q.
Proof.
  apply (linear_cost_chain stub_library module_as_shown "onshore" hub_model
           hub_data "Boiler" boiler 2%Q 10%Q world0 boiler_solution
           stub_library_keeps_common eq_refl sizes_ok_boiler
           (units_ok_continuous boiler eq_refl) eq_refl).
  intros name rows i e Hin Hrow. vm_compute in Hin.
  repeat (destruct Hin as [Hin|Hin];
          [ inversion Hin; subst; clear Hin;
            repeat (destruct Hrow as [Hrow|Hrow];
                    [inversion Hrow; subst; vm_compute; reflexivity|]);
            destruct Hrow
          | ]).
  destruct Hin.
Defined.

(** X6. When the resolved size bounds are non-negative and cross
    (size_max < size_min) on a technology whose size is continuous or whose
    archetype is RES, the size variable is declared all the same, but no
    value is admissible for it, nor for the input variable when the
    technology is not RES: the submodel has no solution
    (lines 113-124). *)
Theorem crossed_bounds_admit_no_size L G nodename model data tec td lo hi w :
  library_keeps_common L ->
  get_tec_data data nodename tec = Ok td ->
  sizes_ok td lo hi -> units_ok td ->
  (hi < lo)%Q ->
  let b := b_tec (snd (init_technology_block L G nodename model data tec
                         (fresh_block w))) in
  (exists v, getattr "var_size" b = Some (CVar v) /\
             forall x, ~ admissible v x) /\
  (tec_type (TechnologyPerf_of td) <> "RES" ->
   exists v, getattr "var_input" b = Some (CVar v) /\
             forall x, ~ admissible v x).
Proof.
  intros HL Hd Hs Hu Hcross b.
  destruct (common_part G model td (fresh_block w)) as [r s0] eqn:Hrun.
  destruct (common_part_declared G model td lo hi w r s0 Hs Hrun) as (_ & Hv).
  destruct (Hv Hu) as (Hin & _ & Hsize & _).
  assert (Hb : forall n, In n common_names -> getattr n b = getattr n (b_tec s0)).
  { intros n Hn. unfold b.
    now apply (init_technology_block_getattr L G nodename model data tec td w r s0). }
  clearbody b. rewrite !Hb by (cbn; tauto). rewrite Hin, Hsize.
  assert (Hno : forall x, (lo <= x)%Q -> (x <= hi)%Q -> False).
  { intros x H1 H2. apply (Qlt_not_le _ _ Hcross). now apply Qle_trans with x. }
  split.
  - eexists. split; [reflexivity|]. intros x [_ [H1 H2]]. cbn in *. eauto.
  - intros Hres. apply String.eqb_neq in Hres. rewrite Hres.
    eexists. split; [reflexivity|]. intros x [_ [H1 H2]]. cbn in *. eauto.
Qed.

Lemma crossed_bounds_admit_no_size_witness :
  exists v,
    getattr "var_size"
      (b_tec (snd (init_technology_block stub_library module_as_shown "onshore"
                     hub_model hub_data "Crossed" (fresh_block world0))))
      = Some (CVar v) /\
    ~ admissible v 3.
Proof.
  destruct (crossed_bounds_admit_no_size stub_library module_as_shown "onshore"
              hub_model hub_data "Crossed" crossed 5%Q 1%Q world0
              stub_library_keeps_common eq_refl sizes_ok_crossed
              (units_ok_continuous crossed eq_refl))
    as [(v & H1 & H2) _].
  - reflexivity.
  - exists v. split; [exact H1|apply H2].
Defined.

(** X7. With a cost model other than the piecewise one, the code of the
    rule before the archetype dispatch returns normally exactly on the
    technologies whose size bounds resolve (no empty collection) to
    non-negative numbers and whose input variable is not rejected for its
    units: the size is continuous, or the technology is RES, or the input
    variable has no index (no time step or no input carrier). With the
    piecewise cost model a normal return needs all that and both breakpoint
    names bound (lines 78-163). *)
Theorem common_part_accepts_iff G model td w :
  (CAPEX_model (Economics_of td) <> 2%Z ->
   ((exists s, common_part G model td (fresh_block w) = (Ok tt, s)) <->
    (exists lo hi, sizes_ok td lo hi) /\
    (units_ok td \/ no_input_index model td))) /\
  (CAPEX_model (Economics_of td) = 2%Z ->
   (exists s, common_part G model td (fresh_block w) = (Ok tt, s)) ->
   (exists lo hi, sizes_ok td lo hi) /\
   (units_ok td \/ no_input_index model td) /\
   is_Some (bp_x G) /\ is_Some (bp_y G)).
Proof.
  split.
  - intros Hc. split.
    + intros [s H].
      destruct (common_part_Ok_inv G model td w s H) as (Hs & Hu & _).
      split; assumption.
    + intros [(lo & hi & Hs) Hu].
      destruct (common_part_returns G model td lo hi w Hs Hu Hc) as (s & H & _).
      now exists s.
  - intros Hc [s H].
    destruct (common_part_Ok_inv G model td w s H) as (Hs & Hu & _ & _ & Hcap & _).
    rewrite Hc in Hcap. cbn in Hcap. destruct Hcap as (pts & f & Hx & Hy & _).
    split; [exact Hs|]. split; [exact Hu|]. rewrite Hx, Hy. split; eexists; reflexivity.
Qed.

(** X8. A size bound that cannot be used ends the rule with a ValueError
    and an unchanged world. An empty size_min or size_max collection leaves
    the block empty (both bounds are resolved before any parameter is
    declared). A negative resolved size_min leaves a block whose only
    component is para_size_min, attached but not built; a negative resolved
    size_max leaves para_size_min built and para_size_max attached but not
    built. No archetype function is called (lines 81-95). *)
Theorem size_bound_errors L G nodename model data tec td w :
  get_tec_data data nodename tec = Ok td ->
  let run := init_technology_block L G nodename model data tec (fresh_block w) in
  let perf := TechnologyPerf_of td in
  let size q := CParam {| p_domain := NonNegativeReals; p_value := q;
                          p_units := unit_size_of td |} in
  (size_min perf = Collection [] ->
     exists msg, run = (Raise (ValueError msg), fresh_block w)) /\
  (forall lo, resolve_size_min (size_min perf) = Ok lo ->
     size_max perf = Collection [] ->
     exists msg, run = (Raise (ValueError msg), fresh_block w)) /\
  (forall lo hi,
     resolve_size_min (size_min perf) = Ok lo ->
     resolve_size_max (size_max perf) = Ok hi ->
     (lo < 0)%Q ->
     exists msg,
       run = (Raise (ValueError msg),
              {| b_tec := [("para_size_min", CFailed (size lo))]; world := w |})) /\
  (forall lo hi,
     resolve_size_min (size_min perf) = Ok lo ->
     resolve_size_max (size_max perf) = Ok hi ->
     (0 <= lo)%Q -> (hi < 0)%Q ->
     exists msg,
       run = (Raise (ValueError msg),
              {| b_tec := [("para_size_min", size lo);
                           ("para_size_max", CFailed (size hi))];
                 world := w |})).
Proof.
  intros Hd run perf size. unfold run, perf, size.
  assert (Hneg : forall q, (q < 0)%Q -> Qle_bool 0 q = false).
  { intros q Hq. destruct (Qle_bool 0 q) eqn:E; [|reflexivity].
    apply Qle_bool_iff in E. exfalso. exact (Qlt_not_le _ _ Hq E). }
  repeat split.
  - intros Hmin.
    rewrite (init_technology_block_run _ _ _ _ _ _ _ _ Hd).
    unfold common_part, region_parameters. rewrite Hmin. cbn. eauto.
  - intros lo Hlo Hmax.
    rewrite (init_technology_block_run _ _ _ _ _ _ _ _ Hd).
    unfold common_part, region_parameters. rewrite Hlo, Hmax. cbn. eauto.
  - intros lo hi Hlo Hhi Hl.
    rewrite (init_technology_block_run _ _ _ _ _ _ _ _ Hd).
    unfold common_part, region_parameters, unit_size_of. rewrite Hlo, Hhi. cbn.
    rewrite (Hneg lo Hl). cbn. eauto.
  - intros lo hi Hlo Hhi Hl Hh.
    rewrite (init_technology_block_run _ _ _ _ _ _ _ _ Hd).
    unfold common_part, region_parameters, unit_size_of. rewrite Hlo, Hhi. cbn.
    apply Qle_bool_iff in Hl. rewrite Hl. cbn. rewrite (Hneg hi Hh). cbn. eauto.
Qed.

Lemma size_bound_errors_witness :
  (exists msg,
     init_technology_block stub_library module_as_shown "onshore" hub_model
       faulty_data "NoMin" (fresh_block world0)
     = (Raise (ValueError msg), fresh_block world0)) /\
  (exists msg p,
     init_technology_block stub_library module_as_shown "onshore" hub_model
       faulty_data "NegativeMax" (fresh_block world0)
     = (Raise (ValueError msg),
        {| b_tec := [("para_size_min", CParam p);
                     ("para_size_max",
                      CFailed (CParam {| p_domain := NonNegativeReals;
                                         p_value := (-1)%Q; p_units := MW |}))];
           world := world0 |})).
Proof.
  split.
  - apply (size_bound_errors stub_library module_as_shown "onshore" hub_model
             faulty_data "NoMin" no_min world0 eq_refl). reflexivity.
  - destruct (size_bound_errors stub_library module_as_shown "onshore" hub_model
                faulty_data "NegativeMax" negative_max world0 eq_refl)
      as (_ & _ & _ & H).
    destruct (H 0%Q (-1)%Q eq_refl eq_refl) as [msg Hm].
    + vm_compute. discriminate.
    + reflexivity.
    + exists msg. eexists. exact Hm.
Defined.

(** X9. Whenever the code of the rule before the archetype dispatch returns
    normally, it has declared exactly the components of [declared_names],
    in that order: the six parameters, the two carrier sets, var_input
    unless the technology is RES, the five other variables, const_CAPEX
    when the cost model is 1 or 2, and the two OPEX constraints. No name is
    declared twice. It returns normally on every technology whose size
    bounds resolve to non-negative numbers, whose size is continuous or
    whose archetype is RES, and whose cost model is not the piecewise one
    (lines 94-150). *)
Theorem declared_components_in_order G model td w :
  (forall lo hi, accepted td lo hi ->
     exists s, common_part G model td (fresh_block w) = (Ok tt, s)) /\
  (forall s, common_part G model td (fresh_block w) = (Ok tt, s) ->
     List.map fst (b_tec s) = declared_names td /\
     NoDup (List.map fst (b_tec s)) /\
     (In "var_input" (List.map fst (b_tec s)) <->
      tec_type (TechnologyPerf_of td) <> "RES") /\
     (In "const_CAPEX" (List.map fst (b_tec s)) <->
      CAPEX_model (Economics_of td) = 1%Z \/ CAPEX_model (Economics_of td) = 2%Z)).
Proof.
  split.
  - intros lo hi Ha.
    destruct (common_part_accepts G model td lo hi w Ha) as (s & H & _).
    now exists s.
  - intros s Hrun.
    destruct (common_part_Ok_inv G model td w s Hrun) as (_ & _ & Hnames & _).
    split; [exact Hnames|].
    rewrite Hnames. unfold declared_names.
    destruct (String.eqb (tec_type (TechnologyPerf_of td)) "RES") eqn:Et;
    destruct (CAPEX_model (Economics_of td) =? 1)%Z eqn:E1;
    destruct (CAPEX_model (Economics_of td) =? 2)%Z eqn:E2; cbn.
    all: first [apply String.eqb_eq in Et | apply String.eqb_neq in Et].
    all: first [apply Z.eqb_eq in E1 | apply Z.eqb_neq in E1].
    all: first [apply Z.eqb_eq in E2 | apply Z.eqb_neq in E2].
    all: split; [apply (bool_decide_unpack _); vm_compute; reflexivity|].
    all: split; split; intros H;
      first [ solve [repeat first [left; reflexivity | right]]
            | solve [exfalso; repeat (destruct H as [H|H]; [discriminate H|]);
                     exact H]
            | solve [auto] | solve [tauto] ].
Qed.

Lemma declared_components_in_order_witness :
  exists s,
    common_part module_as_shown hub_model pv (fresh_block world0) = (Ok tt, s) /\
    ~ In "var_input" (List.map fst (b_tec s)) /\
    In "const_CAPEX" (List.map fst (b_tec s)).
Proof.
  destruct (declared_components_in_order module_as_shown hub_model pv world0)
    as [Hret Hnames].
  destruct (Hret 0%Q 8%Q accepted_pv) as [s Hs].
  exists s. split; [exact Hs|].
  destruct (Hnames s Hs) as (_ & _ & H1 & H2).
  split.
  - intros H. apply H1 in H. now apply H.
  - apply H2. now left.
Defined.

(** ** More of [add_technologies] *)

Lemma for_each_app_run {S A B} (f : A -> M S B) (l1 l2 : list A) s ys s1 :
  for_each f l1 s = (Ok ys, s1) ->
  for_each f (l1 ++ l2) s =
  match for_each f l2 s1 with
  | (Ok zs, s2) => (Ok (ys ++ zs), s2)
  | (Raise e, s2) => (Raise e, s2)
  end.
Proof.
  revert s ys. induction l1 as [|x r IH]; intros s ys H; cbn in *.
  - inversion H; subst. now destruct (for_each f l2 s1) as [[zs|e] s2].
  - destruct (f x s) as [[y|e] s2]; [|discriminate].
    destruct (for_each f r s2) as [[zs|e] s3] eqn:E; [|discriminate].
    inversion H; subst. rewrite (IH s2 zs E).
    now destruct (for_each f l2 s1) as [[zs'|e] s4].
Qed.

Lemma Block_indexed_Ok_inv idx (r : string -> M BuildState unit) w blocks w' :
  Block_indexed idx r w = (Ok blocks, w') ->
  List.map fst blocks = idx /\
  Forall (fun nb => exists w1 s,
            r (fst nb) (fresh_block w1) = (Ok tt, s) /\ snd nb = b_tec s)
         blocks.
Proof.
  unfold Block_indexed. revert w blocks.
  induction idx as [|i rest IH]; intros w blocks H; cbn in H.
  - inversion H; subst. split; [reflexivity|constructor].
  - destruct (r i (fresh_block w)) as [[[]|e] s1] eqn:Ei; [|discriminate].
    destruct (for_each _ rest (world s1)) as [[ys|e] w2] eqn:Er; [|discriminate].
    inversion H; subst. destruct (IH _ _ Er) as [Hn Hf].
    split; [cbn; now rewrite Hn|].
    constructor; [|exact Hf]. exists w, s1. split; [exact Ei|reflexivity].
Qed.

(** X10. When [add_technologies] returns normally, it returns exactly one
    block per technology of the node, in the order of the technology set,
    and each block is the one the rule built on a fresh block for that
    technology, whose data was found (line 181). *)
Theorem add_technologies_blocks_in_order
    L G nodename tecs model data w blocks w' :
  add_technologies L G nodename tecs model data w = (Ok blocks, w') ->
  List.map fst blocks = tecs /\
  Forall (fun nb => exists w1 s td,
            init_technology_block L G nodename model data (fst nb)
              (fresh_block w1) = (Ok tt, s) /\
            snd nb = b_tec s /\
            get_tec_data data nodename (fst nb) = Ok td)
         blocks.
Proof.
  intros H. apply Block_indexed_Ok_inv in H. destruct H as [Hn Hf].
  split; [exact Hn|].
  eapply List.Forall_impl; [|exact Hf].
  intros nb (w1 & s & Hrun & Hb). cbn beta in *.
  destruct (get_tec_data data nodename (fst nb)) as [td|e] eqn:Hd.
  - exists w1, s, td. auto.
  - unfold init_technology_block in Hrun. rewrite Hd in Hrun.
    cbn in Hrun. discriminate.
Qed.

Lemma add_technologies_blocks_in_order_witness :
  List.map fst
    (match fst (add_technologies stub_library module_as_shown "onshore"
                  ["Boiler"; "PV"] hub_model hub_data world0) with
     | Ok blocks => blocks
     | Raise _ => []
     end) = ["Boiler"; "PV"].
Proof.
  destruct (add_technologies stub_library module_as_shown "onshore"
              ["Boiler"; "PV"] hub_model hub_data world0)
    as [[blocks|e] w'] eqn:E.
  - exact (proj1 (add_technologies_blocks_in_order _ _ _ _ _ _ _ _ _ E)).
  - vm_compute in E. discriminate.
Defined.

(** X11. [add_technologies] stops at the first technology whose rule
    raises: when the technologies before it were built and its rule raises
    an exception, that exception is the result, the flag and the lines
    printed by the code are as the failing rule left them, and no
    technology after it is looked at (line 181). *)
Theorem add_technologies_stops_at_first_error
    L G nodename pre tec post model data w blocks w1 e s :
  add_technologies L G nodename pre model data w = (Ok blocks, w1) ->
  init_technology_block L G nodename model data tec (fresh_block w1)
    = (Raise e, s) ->
  add_technologies L G nodename (pre ++ tec :: post) model data w
    = (Raise e, world s).
Proof.
  unfold add_technologies, Block_indexed. intros Hpre Hrule.
  rewrite (for_each_app_run _ pre (tec :: post) w blocks w1 Hpre).
  cbn [for_each]. unfold bind at 1. cbv beta. rewrite Hrule. reflexivity.
Qed.

Lemma add_technologies_stops_at_first_error_witness :
  exists msg,
    add_technologies stub_library module_as_shown "onshore"
      (["Boiler"] ++ "NoMin" :: ["CHP"; "Unknown"]) hub_model faulty_data world0
    = (Raise (ValueError msg), world0).
Proof.
  eexists.
  eapply (add_technologies_stops_at_first_error stub_library module_as_shown
            "onshore" ["Boiler"] "NoMin" ["CHP"; "Unknown"] hub_model
            faulty_data world0 _ world0 _ (fresh_block world0)).
  - vm_compute. reflexivity.
  - vm_compute. reflexivity.
Defined.

(** X12. A technology without data ends the construction with a KeyError
    before anything is declared: the key is the node name when the node has
    no technology data, and the technology name when the node has data but
    not for this technology. The flag and the lines printed by the code
    are unchanged and the technologies after it are not built
    (lines 72, 181). *)
Theorem missing_technology_data_raises_KeyError
    L G nodename tec post model data w :
  (technology_data data !! nodename = None ->
     init_technology_block L G nodename model data tec (fresh_block w)
       = (Raise (KeyError nodename), fresh_block w) /\
     add_technologies L G nodename (tec :: post) model data w
       = (Raise (KeyError nodename), w)) /\
  (forall at_node,
     technology_data data !! nodename = Some at_node ->
     at_node !! tec = None ->
     init_technology_block L G nodename model data tec (fresh_block w)
       = (Raise (KeyError tec), fresh_block w) /\
     add_technologies L G nodename (tec :: post) model data w
       = (Raise (KeyError tec), w)).
Proof.
  split.
  - intros Hn.
    assert (H : init_technology_block L G nodename model data tec (fresh_block w)
                = (Raise (KeyError nodename), fresh_block w)).
    { unfold init_technology_block, get_tec_data. now rewrite Hn. }
    split; [exact H|].
    unfold add_technologies, Block_indexed. cbn [for_each].
    unfold bind at 1. cbv beta. rewrite H. reflexivity.
  - intros at_node Hn Ht.
    assert (H : init_technology_block L G nodename model data tec (fresh_block w)
                = (Raise (KeyError tec), fresh_block w)).
    { unfold init_technology_block, get_tec_data. now rewrite Hn, Ht. }
    split; [exact H|].
    unfold add_technologies, Block_indexed. cbn [for_each].
    unfold bind at 1. cbv beta. rewrite H. reflexivity.
Qed.

Lemma missing_technology_data_raises_KeyError_witness :
  add_technologies stub_library module_as_shown "offshore" ["PV"; "Boiler"]
    hub_model hub_data world0 = (Raise (KeyError "offshore"), world0) /\
  add_technologies stub_library module_as_shown "onshore" ["Turbine"; "Boiler"]
    hub_model hub_data world0 = (Raise (KeyError "Turbine"), world0).
Proof.
  split.
  - apply (proj1 (missing_technology_data_raises_KeyError stub_library
                    module_as_shown "offshore" "PV" ["Boiler"] hub_model
                    hub_data world0)).
    vm_compute. reflexivity.
  - eapply (proj2 (missing_technology_data_raises_KeyError stub_library
                     module_as_shown "onshore" "Turbine" ["Boiler"] hub_model
                     hub_data world0)).
    + vm_compute. reflexivity.
    + vm_compute. reflexivity.
Defined.

Lemma quiet_refl w : quiet w w.
Proof. split; [reflexivity|now left]. Qed.

Lemma quiet_trans w1 w2 w3 : quiet w1 w2 -> quiet w2 w3 -> quiet w1 w3.
Proof.
  intros [Ho1 Hf1] [Ho2 Hf2]. split; [congruence|].
  destruct Hf2 as [Hf2|Hf2]; [|now right].
  rewrite Hf2. exact Hf1.
Qed.

Lemma stub_library_quiet : library_respects quiet stub_library.
Proof.
  intros m d. split; [|split; [|split; [|split]]];
    intros st; apply quiet_refl.
Qed.

(** X13. The code of [add_technologies] has no [print] call and never
    resets the transformation flag: provided the archetype functions do
    neither, the lines printed by the code after the construction are those
    printed before it and the flag is either what it was or 1, however the
    construction ends (lines 69-181). *)
Theorem add_technologies_is_quiet L G nodename tecs model data w :
  library_respects quiet L ->
  quiet w (snd (add_technologies L G nodename tecs model data w)).
Proof.
  intros HL. unfold add_technologies.
  apply (respects_Block_indexed quiet quiet_refl quiet_trans).
  intros tec _. apply respects_init_technology_block.
  - exact quiet_refl.
  - exact quiet_trans.
  - intros td _ _ st. split; [reflexivity|now right].
  - exact HL.
Qed.

Lemma add_technologies_is_quiet_witness :
  quiet world0
    (snd (add_technologies stub_library breakpoints_bound "onshore"
            ["Boiler"; "Kiln"; "PV"] hub_model hub_data world0)).
Proof.
  apply (add_technologies_is_quiet stub_library breakpoints_bound "onshore"
           ["Boiler"; "Kiln"; "PV"] hub_model hub_data world0
           stub_library_quiet).
Defined.

(** ** Sets and index sets *)

(** X14. For every technology whose size bounds resolve to non-negative
    numbers and whose size is continuous or whose archetype is RES, each
    pair (time step, carrier) indexes the output variable at most once, and
    likewise the input variable of a technology that is not RES, even when
    the carrier list of the data names a carrier more than once: the
    carrier sets keep one copy of each carrier (lines 106-118). *)
Theorem variable_indices_are_distinct L G nodename model data tec td lo hi w :
  library_keeps_common L ->
  get_tec_data data nodename tec = Ok td ->
  sizes_ok td lo hi -> units_ok td ->
  List.NoDup (set_t model) ->
  let b := b_tec (snd (init_technology_block L G nodename model data tec
                         (fresh_block w))) in
  (exists v, getattr "var_output" b = Some (CVar v) /\
             List.NoDup (v_index v)) /\
  (tec_type (TechnologyPerf_of td) <> "RES" ->
   exists v, getattr "var_input" b = Some (CVar v) /\
             List.NoDup (v_index v)).
Proof.
  intros HL Hd Hs Hu Hts b.
  destruct (common_part G model td (fresh_block w)) as [r s0] eqn:Hrun.
  destruct (common_part_declared G model td lo hi w r s0 Hs Hrun) as (_ & Hv).
  destruct (Hv Hu) as (Hin & Hout & _).
  assert (Hb : forall n, In n common_names -> getattr n b = getattr n (b_tec s0)).
  { intros n Hn. unfold b.
    now apply (init_technology_block_getattr L G nodename model data tec td w r s0). }
  clearbody b. rewrite !Hb by (cbn; tauto). rewrite Hin, Hout. split.
  - eexists. split; [reflexivity|]. cbn [v_index declared_var_output].
    apply product_index_NoDup; [exact Hts|apply Set_initialize_NoDup].
  - intros Hres. apply String.eqb_neq in Hres. rewrite Hres.
    eexists. split; [reflexivity|]. cbn [v_index declared_var_input].
    apply product_index_NoDup; [exact Hts|apply Set_initialize_NoDup].
Qed.

Lemma variable_indices_are_distinct_witness :
  exists v,
    getattr "var_output"
      (b_tec (snd (init_technology_block stub_library module_as_shown "onshore"
                     hub_model faulty_data "CHP" (fresh_block world0))))
      = Some (CVar v) /\
    List.NoDup (v_index v).
Proof.
  apply (variable_indices_are_distinct stub_library module_as_shown "onshore"
           hub_model faulty_data "CHP" chp 0%Q 4%Q world0
           stub_library_keeps_common eq_refl sizes_ok_chp
           (units_ok_continuous chp eq_refl)).
  cbn. repeat constructor; cbn; intuition discriminate.
Defined.

(** ** The built-in [min] and [max] on ties *)

Lemma py_min_from_first best l :
  (py_min_from best l = best /\ forall y, In y l -> (best <= y)%Q) \/
  (exists l1 l2,
     l = l1 ++ py_min_from best l :: l2 /\
     (py_min_from best l < best)%Q /\
     (forall y, In y l1 -> (py_min_from best l < y)%Q) /\
     (forall y, In y l2 -> (py_min_from best l <= y)%Q)).
Proof.
  revert best. induction l as [|x r IH]; intros best; cbn.
  - left. split; [reflexivity|]. intros y [].
  - destruct (Qltb x best) eqn:E.
    + apply Qltb_true in E. right.
      destruct (IH x) as [[Heq Hall]|(l1 & l2 & Hl & Hlt & H1 & H2)].
      * exists [], r. rewrite Heq. cbn. repeat split; auto. intros y [].
      * exists (x :: l1), l2. split; [cbn; now rewrite <- Hl|].
        split; [now apply Qlt_trans with x|]. split; [|exact H2].
        intros y [<-|Hy]; auto.
    + apply Qltb_false in E.
      destruct (IH best) as [[Heq Hall]|(l1 & l2 & Hl & Hlt & H1 & H2)].
      * left. split; [exact Heq|]. intros y [<-|Hy]; auto.
      * right. exists (x :: l1), l2. split; [cbn; now rewrite <- Hl|].
        split; [exact Hlt|]. split; [|exact H2].
        intros y [<-|Hy]; [|auto]. now apply Qlt_le_trans with best.
Qed.

Lemma py_max_from_first best l :
  (py_max_from best l = best /\ forall y, In y l -> (y <= best)%Q) \/
  (exists l1 l2,
     l = l1 ++ py_max_from best l :: l2 /\
     (best < py_max_from best l)%Q /\
     (forall y, In y l1 -> (y < py_max_from best l)%Q) /\
     (forall y, In y l2 -> (y <= py_max_from best l)%Q)).
Proof.
  revert best. induction l as [|x r IH]; intros best; cbn.
  - left. split; [reflexivity|]. intros y [].
  - destruct (Qltb best x) eqn:E.
    + apply Qltb_true in E. right.
      destruct (IH x) as [[Heq Hall]|(l1 & l2 & Hl & Hlt & H1 & H2)].
      * exists [], r. rewrite Heq. cbn. repeat split; auto. intros y [].
      * exists (x :: l1), l2. split; [cbn; now rewrite <- Hl|].
        split; [now apply Qlt_trans with x|]. split; [|exact H2].
        intros y [<-|Hy]; auto.
    + apply Qltb_false in E.
      destruct (IH best) as [[Heq Hall]|(l1 & l2 & Hl & Hlt & H1 & H2)].
      * left. split; [exact Heq|]. intros y [<-|Hy]; auto.
      * right. exists (x :: l1), l2. split; [cbn; now rewrite <- Hl|].
        split; [exact Hlt|]. split; [|exact H2].
        intros y [<-|Hy]; [|auto]. now apply Qle_lt_trans with best.
Qed.

(** X15. A size bound given as a non-empty collection resolves to the
    first extremal element of the collection: size_min to the element that
    is strictly smaller than everything before it and no greater than
    everything after it, size_max to the element strictly greater than
    everything before it and no smaller than everything after it. Among
    equal numbers (an integer and a float of the same value) the earliest
    one is kept (lines 84, 88). *)
Theorem collection_bounds_resolve_to_first_extremum (x : Q) (l : list Q) :
  (exists a l1 l2,
     resolve_size_min (Collection (x :: l)) = Ok a /\
     x :: l = l1 ++ a :: l2 /\
     (forall y, In y l1 -> (a < y)%Q) /\
     (forall y, In y l2 -> (a <= y)%Q)) /\
  (exists b l1 l2,
     resolve_size_max (Collection (x :: l)) = Ok b /\
     x :: l = l1 ++ b :: l2 /\
     (forall y, In y l1 -> (y < b)%Q) /\
     (forall y, In y l2 -> (y <= b)%Q)).
Proof.
  split.
  - exists (py_min_from x l).
    destruct (py_min_from_first x l) as [[Heq Hall]|(l1 & l2 & Hl & Hlt & H1 & H2)].
    + exists [], l. split; [reflexivity|]. rewrite Heq.
      split; [reflexivity|]. split; [intros y []|exact Hall].
    + exists (x :: l1), l2. split; [reflexivity|].
      split; [cbn; now rewrite <- Hl|]. split; [|exact H2].
      intros y [<-|Hy]; auto.
  - exists (py_max_from x l).
    destruct (py_max_from_first x l) as [[Heq Hall]|(l1 & l2 & Hl & Hlt & H1 & H2)].
    + exists [], l. split; [reflexivity|]. rewrite Heq.
      split; [reflexivity|]. split; [intros y []|exact Hall].
    + exists (x :: l1), l2. split; [reflexivity|].
      split; [cbn; now rewrite <- Hl|]. split; [|exact H2].
      intros y [<-|Hy]; auto.
Qed.

(** ** More of [energyhub.__init__] *)

Lemma Set_indexed_tec_node_outcome sets set idx w :
  (forall n, In n idx -> In n set) ->
  (Forall (fun n => is_Some (technologies sets !! n)) idx /\
   Set_indexed idx (tec_node sets set) w = (Ok (technology_sets_of sets idx), w))
  \/
  (exists n, In n idx /\ technologies sets !! n = None /\
     Set_indexed idx (tec_node sets set) w =
       (Raise (KeyError n),
        {| big_m_transformation_required := big_m_transformation_required w;
           printed := printed w ++ [missing_node_message n] |})).
Proof.
  unfold Set_indexed, technology_sets_of.
  induction idx as [|i rest IH]; intros Hsub.
  - left. split; [constructor|reflexivity].
  - assert (Hi : existsb (String.eqb i) set = true).
    { apply existsb_eqb_In. apply Hsub. now left. }
    destruct (technologies sets !! i) as [tecs|] eqn:Ht.
    + destruct IH as [[Hall Hrun]|(n & Hn & Hnone & Hrun)].
      * intros n Hn. apply Hsub. now right.
      * left. split; [constructor; [now exists tecs|exact Hall]|].
        cbn [for_each List.map]. unfold bind at 1. unfold bind at 1.
        unfold tec_node at 1. rewrite Hi, Ht. cbn [ret].
        unfold bind at 1. rewrite Hrun. reflexivity.
      * right. exists n. split; [now right|]. split; [exact Hnone|].
        cbn [for_each]. unfold bind at 1. unfold bind at 1.
        unfold tec_node at 1. rewrite Hi, Ht. cbn [ret].
        unfold bind at 1. rewrite Hrun. reflexivity.
    + right. exists i. split; [now left|]. split; [exact Ht|].
      cbn [for_each]. unfold bind at 1. unfold bind at 1.
      unfold tec_node at 1. rewrite Hi, Ht. reflexivity.
Qed.

Lemma energyhub_init_unfold data w :
  energyhub_init data w =
  match Set_initialize (nodes (topology data)) with
  | [] => (Raise (IndexError "set_nodes[1]"), w)
  | first :: _ =>
      match node_data data !! first with
      | None => (Raise (KeyError first), w)
      | Some cols =>
          match Set_indexed (Set_initialize (nodes (topology data)))
                  (tec_node (topology data)
                     (Set_initialize (nodes (topology data)))) w with
          | (Ok tecs, w') =>
              (Ok {| set_nodes := Set_initialize (nodes (topology data));
                     set_carriers := Set_initialize (carriers (topology data));
                     set_t := RangeSet 1 (List.length (timesteps (topology data)));
                     set_climate_vars := Set_initialize cols;
                     set_technologies := tecs |}, w')
          | (Raise e, w') => (Raise e, w')
          end
      end
  end.
Proof.
  unfold energyhub_init.
  destruct (Set_initialize (nodes (topology data))) as [|first rest];
    [reflexivity|].
  unfold bind at 1. cbn [ret]. unfold bind at 1.
  destruct (node_data data !! first) as [cols|]; [|reflexivity].
  cbn [ret]. unfold bind at 1.
  destruct (Set_indexed _ _ w) as [[tecs|e] w']; reflexivity.
Qed.

(** X16. When the node list is not empty, the first node has climate data
    and every node has an entry in the technology-set mapping, the
    constructor returns the model of the topology: the node and carrier
    sets without repetitions, the time steps numbered from 1, the climate
    variables of the first node, and for every node the set made from its
    mapping entry. Its [print] call is not reached and the flag is left as
    it was (lines 31-48). *)
Theorem energyhub_init_builds_the_sets data w first others cols :
  nodes (topology data) = first :: others ->
  node_data data !! first = Some cols ->
  (forall n, In n (nodes (topology data)) ->
             is_Some (technologies (topology data) !! n)) ->
  energyhub_init data w = (Ok (model_of data cols), w).
Proof.
  intros Hnodes Hcols Hall.
  rewrite energyhub_init_unfold. unfold model_of.
  destruct (Set_indexed_tec_node_outcome (topology data)
              (Set_initialize (nodes (topology data)))
              (Set_initialize (nodes (topology data))) w (fun n H => H))
    as [[_ Hrun]|(n & Hn & Hnone & _)].
  - rewrite Hrun. rewrite Hnodes at 1. cbn [Set_initialize].
    rewrite Hcols. reflexivity.
  - apply (proj1 (Set_initialize_In _ _)) in Hn.
    destruct (Hall n Hn) as [tecs Ht]. congruence.
Qed.

Lemma energyhub_init_builds_the_sets_witness :
  energyhub_init hub_data world0
  = (Ok (model_of hub_data ["temp_air"; "ws10"]), world0).
Proof.
  apply (energyhub_init_builds_the_sets hub_data world0 "onshore" []
           ["temp_air"; "ws10"] eq_refl).
  - vm_compute. reflexivity.
  - intros n [<-|[]]. eexists. vm_compute. reflexivity.
Defined.

(** X17. The constructor fails before it looks at the technology-set
    mapping when the node list is empty (the first node cannot be read) and
    when the first node has no climate data (KeyError with the name of that
    node). In both cases the [print] call of the code is not reached and
    the flag is unchanged, whatever the mapping holds (lines 35-39). *)
Theorem energyhub_init_fails_before_the_mapping data w :
  (nodes (topology data) = [] ->
     exists msg, energyhub_init data w = (Raise (IndexError msg), w)) /\
  (forall first others,
     nodes (topology data) = first :: others ->
     node_data data !! first = None ->
     energyhub_init data w = (Raise (KeyError first), w)).
Proof.
  split.
  - intros Hn. rewrite energyhub_init_unfold, Hn. cbn. eauto.
  - intros first others Hn Hcols.
    rewrite energyhub_init_unfold, Hn. cbn [Set_initialize].
    now rewrite Hcols.
Qed.

Lemma energyhub_init_fails_before_the_mapping_witness :
  energyhub_init (with_technology_set "onshore" [] {|
      topology := topology hub_data;
      node_data := {[ "offshore" := ["ws10"] ]};
      technology_data := technology_data hub_data |}) world0
  = (Raise (KeyError "onshore"), world0).
Proof.
  eapply (proj2 (energyhub_init_fails_before_the_mapping _ world0)
            "onshore" []).
  - reflexivity.
  - vm_compute. reflexivity.
Defined.

(** X18. The constructor never writes the transformation flag, leaves the
    world as it was whenever it returns a model, and its [print] call
    writes at most one line. It writes that line exactly when the node list
    is not empty, its first node has climate data and some node of the list
    has no entry in the technology-set mapping; it then raises the KeyError
    of such a node and the line names it (lines 31-48). *)
Theorem energyhub_init_prints_only_its_KeyError data w :
  let run := energyhub_init data w in
  big_m_transformation_required (snd run) = big_m_transformation_required w /\
  (forall model, fst run = Ok model -> snd run = w) /\
  (printed (snd run) = printed w \/
   exists n,
     In n (nodes (topology data)) /\
     technologies (topology data) !! n = None /\
     fst run = Raise (KeyError n) /\
     printed (snd run) = printed w ++ [missing_node_message n]) /\
  (printed (snd run) <> printed w <->
   (exists first others,
      nodes (topology data) = first :: others /\
      is_Some (node_data data !! first)) /\
   (exists n, In n (nodes (topology data)) /\
              technologies (topology data) !! n = None)).
Proof.
  cbv zeta. rewrite energyhub_init_unfold.
  assert (Hgrow : forall (l : list string) x, l ++ [x] <> l).
  { intros l x H. apply (f_equal (@List.length string)) in H.
    rewrite List.length_app in H. cbn in H. lia. }
  destruct (nodes (topology data)) as [|first others] eqn:Enodes.
  { cbn. split; [reflexivity|]. split; [discriminate|]. split; [now left|].
    split; [intros H; now contradiction H|].
    intros [(f & o & H & _) _]. discriminate. }
  assert (Eset : exists rest,
            Set_initialize (nodes (topology data)) = first :: rest).
  { rewrite Enodes. cbn. eauto. }
  destruct Eset as [rest Eset]. rewrite <- Enodes. rewrite Eset.
  destruct (node_data data !! first) as [cols|] eqn:Ecols.
  2: { cbn. split; [reflexivity|]. split; [discriminate|]. split; [now left|].
       split; [intros H; now contradiction H|].
       intros [(f & o & H & Hsome) _]. rewrite Enodes in H.
       injection H as <- <-. rewrite Ecols in Hsome.
       destruct Hsome as [x Hx]. discriminate. }
  rewrite <- Eset.
  destruct (Set_indexed_tec_node_outcome (topology data)
              (Set_initialize (nodes (topology data)))
              (Set_initialize (nodes (topology data))) w (fun n H => H))
    as [[Hall Hrun]|(n & Hn & Hnone & Hrun)]; rewrite Hrun; cbn.
  - split; [reflexivity|]. split; [reflexivity|]. split; [now left|].
    split; [intros H; now contradiction H|].
    intros [_ (n & Hn & Hnone)].
    apply Set_initialize_In in Hn.
    rewrite List.Forall_forall in Hall. destruct (Hall n Hn) as [x Hx].
    congruence.
  - apply (proj1 (Set_initialize_In _ _)) in Hn.
    split; [reflexivity|]. split; [discriminate|]. split.
    + right. exists n. auto.
    + split; [|intros _; apply Hgrow].
      intros _. split.
      * exists first, others. split; [exact Enodes|]. rewrite Ecols. now eexists.
      * exists n. auto.
Qed.

Lemma energyhub_init_prints_only_its_KeyError_witness :
  printed (snd (energyhub_init hub_data_missing_set world0)) <> printed world0 /\
  printed (snd (energyhub_init hub_data world0)) = printed world0.
Proof.
  split.
  - apply (proj2 (proj2 (proj2 (proj2
             (energyhub_init_prints_only_its_KeyError hub_data_missing_set world0))))).
    split.
    + exists "onshore", ["offshore"]. split; [reflexivity|].
      eexists. vm_compute. reflexivity.
    + exists "offshore". split; [cbn; auto|]. vm_compute. reflexivity.
  - destruct (proj1 (proj2 (proj2
               (energyhub_init_prints_only_its_KeyError hub_data world0))))
      as [H|(n & _ & _ & H & _)]; [exact H|].
    vm_compute in H. discriminate.
Defined.

Lemma RangeSet_In (t : Z) (n : nat) :
  In t (RangeSet 1 n) <-> (1 <= t <= Z.of_nat n)%Z.
Proof.
  unfold RangeSet. rewrite List.in_map_iff. split.
  - intros (i & <- & Hi). apply List.in_seq in Hi. lia.
  - intros Ht. exists (Z.to_nat (t - 1)). split; [lia|].
    apply List.in_seq. lia.
Qed.

(** X19. Every model the constructor returns has a non-empty node set
    without repetitions that holds exactly the nodes of the topology, one
    technology set per node in the order of the node set, each made from
    the node's entry of the mapping (never an empty default), a carrier set
    without repetitions, and the time steps 1 to the number of time steps
    of the topology (lines 35-48). *)
Theorem constructed_model_invariants data w model w' :
  energyhub_init data w = (Ok model, w') ->
  set_nodes model <> [] /\
  List.NoDup (set_nodes model) /\
  (forall n, In n (set_nodes model) <-> In n (nodes (topology data))) /\
  List.map fst (set_technologies model) = set_nodes model /\
  (forall n l, In (n, l) (set_technologies model) ->
     exists raw, technologies (topology data) !! n = Some raw /\
                 l = Set_initialize raw) /\
  List.NoDup (set_carriers model) /\
  (forall t, In t (set_t model) <->
     (1 <= t <= Z.of_nat (List.length (timesteps (topology data))))%Z).
Proof.
  rewrite energyhub_init_unfold.
  destruct (Set_initialize (nodes (topology data))) as [|first rest] eqn:Eset;
    [discriminate|].
  destruct (node_data data !! first) as [cols|]; [|discriminate].
  rewrite <- Eset.
  destruct (Set_indexed_tec_node_outcome (topology data)
              (Set_initialize (nodes (topology data)))
              (Set_initialize (nodes (topology data))) w (fun n H => H))
    as [[Hall Hrun]|(n & Hn & Hnone & Hrun)]; rewrite Hrun; [|discriminate].
  intros H. inversion H; subst; clear H. cbn.
  split; [rewrite Eset; discriminate|].
  split; [apply Set_initialize_NoDup|].
  split; [intros n; apply Set_initialize_In|].
  split.
  { unfold technology_sets_of. rewrite List.map_map. cbn. apply List.map_id. }
  split.
  { intros n l Hin. unfold technology_sets_of in Hin.
    apply List.in_map_iff in Hin. destruct Hin as (n' & Heq & Hn').
    inversion Heq; subst.
    rewrite List.Forall_forall in Hall. destruct (Hall n Hn') as [raw Hraw].
    exists raw. rewrite Hraw. auto. }
  split; [apply Set_initialize_NoDup|].
  intros t. apply RangeSet_In.
Qed.

Lemma constructed_model_invariants_witness :
  List.map fst (set_technologies (model_of hub_data ["temp_air"; "ws10"]))
  = set_nodes (model_of hub_data ["temp_air"; "ws10"]).
Proof.
  eapply (constructed_model_invariants hub_data world0 _ world0).
  vm_compute. reflexivity.
Defined.

(** ** The rule and the world *)

(** X20. The code of the rule before the archetype dispatch never reads the
    world: on the same technology it ends the same way (the same exception,
    or normally) and leaves the same block whatever the flag and the output
    were, so what is declared for a technology does not depend on the
    technologies built before it (lines 78-163). *)
Theorem common_part_ignores_the_world G model td w1 w2 :
  fst (common_part G model td (fresh_block w1))
    = fst (common_part G model td (fresh_block w2)) /\
  b_tec (snd (common_part G model td (fresh_block w1)))
    = b_tec (snd (common_part G model td (fresh_block w2))).
Proof.
  destruct (common_part G model td (fresh_block w1)) as [r1 s1] eqn:H1.
  destruct (common_part G model td (fresh_block w2)) as [r2 s2] eqn:H2.
  cbn [fst snd]. revert H1 H2.
  unfold common_part, region_parameters, region_sets,
    region_decision_variables, region_general_constraints.
  destruct (resolve_size_min (size_min (TechnologyPerf_of td))) as [lo|e];
    cbn; [|do 2 read_run; split; reflexivity].
  destruct (resolve_size_max (size_max (TechnologyPerf_of td))) as [hi|e];
    cbn; [|do 2 read_run; split; reflexivity].
  destruct (Qle_bool 0 lo); cbn; [|do 2 read_run; split; reflexivity].
  destruct (Qle_bool 0 hi); cbn; [|do 2 read_run; split; reflexivity].
  destruct (String.eqb (tec_type (TechnologyPerf_of td)) "RES");
  destruct (size_is_int (TechnologyPerf_of td)); cbn.
  3: destruct (product_index (set_t model)
                 (Set_initialize (input_carrier (TechnologyPerf_of td))))
       as [|i0 idx]; cbn; [|do 2 read_run; split; reflexivity].
  all: cost_branches G td;
       try (erewrite Constraint_indexed_run by reflexivity; cbn).
  all: do 2 read_run; split; reflexivity.
Qed.

(** X21. An integer-sized technology that is not RES and whose input
    variable has an index (the horizon has a time step and the technology
    an input carrier) cannot be built: its size parameters are
    dimensionless and the input variable, in MW, takes them as bounds, so
    the rule raises InconsistentUnitsError while it declares the input
    variable. The block keeps the six parameters, the two carrier sets and
    the input variable, attached but not built; no output or size variable
    and no constraint is declared, the world is unchanged, and
    [add_technologies] ends with that exception (lines 90-95, 113-115). *)
Theorem integer_size_breaks_input_bounds
    L G nodename model data tec post td lo hi w :
  get_tec_data data nodename tec = Ok td ->
  sizes_ok td lo hi ->
  size_is_int (TechnologyPerf_of td) = true ->
  tec_type (TechnologyPerf_of td) <> "RES" ->
  set_t model <> [] -> input_carrier (TechnologyPerf_of td) <> [] ->
  exists msg s v plo phi,
    init_technology_block L G nodename model data tec (fresh_block w)
      = (Raise (InconsistentUnitsError msg), s) /\
    world s = w /\
    List.map fst (b_tec s) =
      ["para_size_min"; "para_size_max"; "para_output_max"; "para_unit_CAPEX";
       "para_OPEX_variable"; "para_OPEX_fixed";
       "set_input_carriers"; "set_output_carriers"; "var_input"] /\
    getattr "var_input" (b_tec s) = Some (CFailed (CVar v)) /\
    v_units v = Some MW /\
    v_bounds v = Some (BParam plo, BParam phi) /\
    p_units plo = dimensionless /\ p_units phi = dimensionless /\
    add_technologies L G nodename (tec :: post) model data w
      = (Raise (InconsistentUnitsError msg), w).
Proof.
  intros Hd Hs Hi Hres Ht Hc.
  destruct (common_part_units_error G model td lo hi w Hs Hi Hres)
    as (msg & s & Hrun & Hw & Hnames & Hv).
  { intros [H|H]; contradiction. }
  assert (Hinit : init_technology_block L G nodename model data tec (fresh_block w)
                  = (Raise (InconsistentUnitsError msg), s)).
  { rewrite (init_technology_block_run _ _ _ _ _ _ _ _ Hd).
    now rewrite (bind_Raise _ _ _ _ _ Hrun). }
  exists msg, s. eexists. eexists. eexists.
  split; [exact Hinit|]. split; [exact Hw|]. split; [exact Hnames|].
  split; [exact Hv|]. split; [reflexivity|]. split; [reflexivity|].
  unfold declared_size_param, unit_size_of. rewrite Hi.
  split; [reflexivity|]. split; [reflexivity|].
  unfold add_technologies, Block_indexed. cbn [for_each].
  unfold bind at 1. rewrite Hinit, Hw. reflexivity.
Qed.

Lemma integer_size_breaks_input_bounds_witness :
  exists msg,
    add_technologies stub_library module_as_shown "onshore"
      ("Engine" :: ["Boiler"]) hub_model faulty_data world0
    = (Raise (InconsistentUnitsError msg), world0).
Proof.
  destruct (integer_size_breaks_input_bounds stub_library module_as_shown
              "onshore" hub_model faulty_data "Engine" ["Boiler"] engine
              0%Q 4%Q world0 eq_refl)
    as (msg & s & v & plo & phi & _ & _ & _ & _ & _ & _ & _ & _ & H).
  - repeat split; try reflexivity; vm_compute; discriminate.
  - reflexivity.
  - vm_compute. discriminate.
  - discriminate.
  - discriminate.
  - exists msg. exact H.
Defined.
